(** * Shallow embedding of the pharme-study-result-analyses core

    Time-point resolution ([modules/survey_results/get_data.py]),
    comprehension scoring ([modules/survey_results/comprehension.py]),
    the statistical comparator ([modules/utils/statistics.py]) and the
    comparison results ledger ([modules/utils/comparisons.py]). *)

From Stdlib Require Import String Ascii ZArith Lia Reals Lra.
From Stdlib Require Floats.
From stdpp Require Import base list gmap strings sorting.

Open Scope string_scope.
Open Scope list_scope.

(** ** Python exceptions and a small error monad *)

Inductive exn :=
  | ThisShouldNeverHappenError
  | KeyError (key : string)
  | UndefinedScoresError (message : string)
  | RaisedException (message : string)
  | IndexError
  | TypeError (message : string)
  | AttributeError (message : string)
  | StopIteration.

Inductive res (A : Type) :=
  | Ok (a : A)
  | Raise (e : exn).
Arguments Ok {A} a.
Arguments Raise {A} e.

Definition res_bind {A B} (m : res A) (k : A -> res B) : res B :=
  match m with
  | Ok a => k a
  | Raise e => Raise e
  end.

Notation "'let*' x := m 'in' k" := (res_bind m (fun x => k))
  (at level 200, x name, m at level 100, k at level 200).

(** Python string equality. *)
Definition str_eq (a b : string) : bool := String.eqb a b.

(** ** Time points ([modules/definitions/types.py]) *)

Inductive TimePoint :=
  | RESULT_RETURN
  | ONE_MONTH_FOLLOW_UP
  | THREE_MONTH_FOLLOW_UP.

(** [TimePointDefinition(postfix, index)] *)
Definition tp_postfix (t : TimePoint) : string :=
  match t with
  | RESULT_RETURN => "t0"
  | ONE_MONTH_FOLLOW_UP => "t30"
  | THREE_MONTH_FOLLOW_UP => "t90"
  end.

Definition tp_index (t : TimePoint) : Z :=
  match t with
  | RESULT_RETURN => 0
  | ONE_MONTH_FOLLOW_UP => 1
  | THREE_MONTH_FOLLOW_UP => 2
  end.

(** [for other_time_point in TimePoint] iterates in declaration order. *)
Definition all_time_points : list TimePoint :=
  [RESULT_RETURN; ONE_MONTH_FOLLOW_UP; THREE_MONTH_FOLLOW_UP].

(** ** Time-point resolver ([filter_results_by_time_point]) *)
Module TimePointResolver.

(** A survey row: the participant id column, the [authored_at_gmt] time
    marker (read from CSV as a string) and the remaining answer columns. *)
Record SurveyRow := {
  participant_id : string;
  authored_at_gmt : string;
  answers : list (string * string)
}.

(** A progress cell: NaN (empty in the CSV) or a recorded value. *)
Inductive Cell :=
  | NaN
  | Val (v : string).

Definition value_is_nan (c : Cell) : bool :=
  match c with NaN => true | Val _ => false end.

Record ProgressRow := {
  prog_participant_id : string;
  prog_cell : string -> Cell
}.

(** [PROGRESS_DATA_FILE] loaded as a data frame: its columns and rows. *)
Record ProgressData := {
  prog_columns : list string;
  prog_rows : list ProgressRow
}.

Definition progress_column (survey_name : string) (t : TimePoint) : string :=
  (survey_name ++ "_" ++ tp_postfix t)%string.

(** [_participant_completed_survey]: select the participant's rows, then
    the column (a missing column is a [KeyError]); exactly one value is
    expected, and the survey counts as completed when it is not NaN. *)
Definition participant_completed_survey (progress : ProgressData)
    (pid survey_name : string) (t : TimePoint) : res bool :=
  let col := progress_column survey_name t in
  if negb (existsb (str_eq col) (prog_columns progress)) then Raise (KeyError col)
  else
    match List.filter (fun r => str_eq (prog_participant_id r) pid) (prog_rows progress) with
    | [r] => Ok (negb (value_is_nan (prog_cell r col)))
    | _ => Raise ThisShouldNeverHappenError
    end.

(** [survey_results[PARTICIPANT_ID].unique()]: first-appearance order. *)
Fixpoint unique_ids_aux (seen : list string) (l : list string) : list string :=
  match l with
  | [] => []
  | x :: l' =>
      if existsb (str_eq x) seen then unique_ids_aux seen l'
      else x :: unique_ids_aux (x :: seen) l'
  end.

Definition unique_participant_ids (rows : list SurveyRow) : list string :=
  unique_ids_aux [] (map participant_id rows).

Section Resolver.

(** [DataFrame.sort_values(TIME_POINT)] is a library call; the resolver
    relies only on it returning a reordering of its rows.  The algorithm
    pandas runs by default is modelled in [NumpySort] below. *)
Variable sort_values : list SurveyRow -> list SurveyRow.
Hypothesis sort_values_perm : forall l, Permutation (sort_values l) l.

Variable survey_name : string.
Variable progress : ProgressData.

(** The [for other_time_point in TimePoint] loop: decrement the index for
    every earlier time point that was not completed, stop at [t]. *)
Fixpoint adjust_index (pid : string) (t : TimePoint) (others : list TimePoint)
    (time_point_index : Z) : res Z :=
  match others with
  | [] => Ok time_point_index
  | o :: others' =>
      if Z.eqb (tp_index o) (tp_index t) then Ok time_point_index
      else
        let* done_o := participant_completed_survey progress pid survey_name o in
        adjust_index pid t others'
          (if done_o then time_point_index else time_point_index - 1)
  end.

(** The body of the loop over participants: [Ok None] is [continue]
    (time point missing, or the warning about data not loaded yet). *)
Definition select_participant_row (rows : list SurveyRow) (pid : string)
    (t : TimePoint) : res (option SurveyRow) :=
  let participant_data :=
    sort_values (List.filter (fun r => str_eq (participant_id r) pid) rows) in
  let* completed := participant_completed_survey progress pid survey_name t in
  if negb completed then Ok None
  else
    let* time_point_index := adjust_index pid t all_time_points (tp_index t) in
    if Z.gtb time_point_index (Z.of_nat (length participant_data) - 1) then Ok None
    else Ok (participant_data !! Z.to_nat time_point_index).

Fixpoint collect_rows (rows : list SurveyRow) (t : TimePoint)
    (pids : list string) (acc : list SurveyRow) : res (list SurveyRow) :=
  match pids with
  | [] => Ok acc
  | pid :: pids' =>
      let* selected := select_participant_row rows pid t in
      collect_rows rows t pids'
        (match selected with Some r => acc ++ [r] | None => acc end)
  end.

(** [filter_results_by_time_point(survey, time_point)] on the loaded
    survey results [rows]. *)
Definition filter_results_by_time_point (rows : list SurveyRow) (t : TimePoint)
    : res (list SurveyRow) :=
  collect_rows rows t (unique_participant_ids rows) [].

End Resolver.

End TimePointResolver.

(** ** The sort behind [DataFrame.sort_values(TIME_POINT)]

    pandas sorts a single column with [nargsort(kind="quicksort")], i.e.
    numpy's [argsort(kind="quicksort")] over the (string, hence object
    dtype) time markers: numpy's introsort [npy_aquicksort] on an index
    array [tosort], with median-of-three partitioning, an insertion sort
    for partitions of at most [SMALL_QUICKSORT + 1] elements and a heapsort
    fallback when the depth budget [2 * msb(num)] runs out.  Positions are
    the C pointers as offsets into [tosort] (signed, as [pr] can be -1).
    Loops carry fuel derived from the array length; [None] means the fuel
    ran out, which the bounds of the C loops never allow. *)
Module NumpySort.
Local Open Scope Z_scope.

Definition SMALL_QUICKSORT : Z := 15.

(** [tosort[i]] and [tosort[i] = x] *)
Definition get (a : list nat) (i : Z) : nat := nth (Z.to_nat i) a O.
Definition put (a : list nat) (i : Z) (x : nat) : list nat := <[Z.to_nat i := x]> a.

(** [INTP_SWAP(a[i], a[j])] *)
Definition swap (a : list nat) (i j : Z) : list nat :=
  let tmp := get a i in put (put a i (get a j)) j tmp.

(** [Tag::less(v[x], v[y])]: Python [<] on the strings. *)
Definition str_lt (s1 s2 : string) : bool :=
  match String.compare s1 s2 with Lt => true | _ => false end.

Definition less (v : list string) (x y : nat) : bool :=
  str_lt (nth x v "") (nth y v "").

(** [do ++pi; while (less(v[a[pi]], vp));] *)
Fixpoint scan_up (fuel : nat) (v : list string) (a : list nat) (pi : Z) (vp : nat)
    : option Z :=
  match fuel with
  | O => None
  | S f => if less v (get a (pi + 1)) vp then scan_up f v a (pi + 1) vp
           else Some (pi + 1)
  end.

(** [do --pj; while (less(vp, v[a[pj]]));] *)
Fixpoint scan_down (fuel : nat) (v : list string) (a : list nat) (pj : Z) (vp : nat)
    : option Z :=
  match fuel with
  | O => None
  | S f => if less v vp (get a (pj - 1)) then scan_down f v a (pj - 1) vp
           else Some (pj - 1)
  end.

(** The [for (;;)] partition loop; returns the array and [pi]. *)
Fixpoint partition_loop (fuel : nat) (v : list string) (a : list nat) (pi pj : Z)
    (vp : nat) : option (list nat * Z) :=
  match fuel with
  | O => None
  | S f =>
      pi' ← scan_up (S (length a)) v a pi vp;
      pj' ← scan_down (S (length a)) v a pj vp;
      if Z.leb pj' pi' then Some (a, pi')
      else partition_loop f v (swap a pi' pj') pi' pj' vp
  end.

(** One quicksort partition of [pl..pr]. *)
Definition partition (v : list string) (a : list nat) (pl pr : Z) : option (list nat * Z) :=
  let pm := pl + Z.shiftr (pr - pl) 1 in
  let a := if less v (get a pm) (get a pl) then swap a pm pl else a in
  let a := if less v (get a pr) (get a pm) then swap a pr pm else a in
  let a := if less v (get a pm) (get a pl) then swap a pm pl else a in
  let vp := get a pm in
  let pj := pr - 1 in
  let a := swap a pm pj in
  '(a, pi) ← partition_loop (S (length a)) v a pl pj vp;
  Some (swap a pi (pr - 1), pi).

(** The insertion sort of [pl..pr]: element [x] moves left past the
    already sorted elements [y] with [less x y] ([while (pj > pl &&
    less(vp, v[*pk])) *pj-- = *pk--;]).  The sorted prefix is kept
    reversed, its last element first. *)
Fixpoint ins_rev {A} (lt : A -> A -> bool) (x : A) (r : list A) : list A :=
  match r with
  | [] => [x]
  | y :: ys => if lt x y then y :: ins_rev lt x ys else x :: y :: ys
  end.

Definition insertion_sort {A} (lt : A -> A -> bool) (l : list A) : list A :=
  rev (fold_left (fun r x => ins_rev lt x r) l []).

Definition insertion_sort_range (v : list string) (a : list nat) (pl pr : Z) : list nat :=
  let seg := take (Z.to_nat (pr - pl + 1)) (drop (Z.to_nat pl) a) in
  take (Z.to_nat pl) a ++ insertion_sort (less v) seg ++ drop (Z.to_nat (pr + 1)) a.

(** [npy_aheapsort] on [tosort + pl], [n] elements, 1-based ([a = tosort - 1]). *)
Fixpoint sift (fuel : nat) (v : list string) (a : list nat) (base n i j : Z) (tmp : nat)
    : option (list nat * Z) :=
  match fuel with
  | O => None
  | S f =>
      if Z.leb j n then
        let j := if Z.ltb j n && less v (get a (base + j)) (get a (base + j + 1))
                 then j + 1 else j in
        if less v tmp (get a (base + j))
        then sift f v (put a (base + i) (get a (base + j))) base n j (j + j) tmp
        else Some (a, i)
      else Some (a, i)
  end.

Fixpoint heap_build (fuel : nat) (v : list string) (a : list nat) (base n l : Z)
    : option (list nat) :=
  match fuel with
  | O => None
  | S f =>
      if Z.gtb l 0 then
        let tmp := get a (base + l) in
        '(a, i) ← sift (S (length a)) v a base n l (Z.shiftl l 1) tmp;
        heap_build f v (put a (base + i) tmp) base n (l - 1)
      else Some a
  end.

Fixpoint heap_extract (fuel : nat) (v : list string) (a : list nat) (base n : Z)
    : option (list nat) :=
  match fuel with
  | O => None
  | S f =>
      if Z.gtb n 1 then
        let tmp := get a (base + n) in
        let a := put a (base + n) (get a (base + 1)) in
        let n := n - 1 in
        '(a, i) ← sift (S (length a)) v a base n 1 2 tmp;
        heap_extract f v (put a (base + i) tmp) base n
      else Some a
  end.

Definition aheapsort (v : list string) (a : list nat) (pl n : Z) : option (list nat) :=
  let base := pl - 1 in
  a ← heap_build (S (length a)) v a base n (Z.shiftr n 1);
  heap_extract (S (length a)) v a base n.

(** [while ((pr - pl) > SMALL_QUICKSORT) { partition; push the larger
    side with [--cdepth]; continue with the smaller side }] *)
Fixpoint qs_partitions (fuel : nat) (v : list string) (a : list nat) (pl pr cdepth : Z)
    (stack : list (Z * Z * Z)) : option (list nat * Z * Z * list (Z * Z * Z)) :=
  match fuel with
  | O => None
  | S f =>
      if Z.gtb (pr - pl) SMALL_QUICKSORT then
        '(a, pi) ← partition v a pl pr;
        let cdepth := cdepth - 1 in
        if Z.ltb (pi - pl) (pr - pi)
        then qs_partitions f v a pl (pi - 1) cdepth ((pi + 1, pr, cdepth) :: stack)
        else qs_partitions f v a (pi + 1) pr cdepth ((pl, pi - 1, cdepth) :: stack)
      else Some (a, pl, pr, stack)
  end.

(** The outer [for (;;)] with [stack_pop]. *)
Fixpoint qs_outer (fuel : nat) (v : list string) (a : list nat) (pl pr cdepth : Z)
    (stack : list (Z * Z * Z)) : option (list nat) :=
  match fuel with
  | O => None
  | S f =>
      '(a, stack) ←
        (if Z.ltb cdepth 0 then
           a ← aheapsort v a pl (pr - pl + 1); Some (a, stack)
         else
           '(a, pl, pr, stack) ← qs_partitions (S (length a)) v a pl pr cdepth stack;
           Some (insertion_sort_range v a pl pr, stack));
      match stack with
      | [] => Some a
      | (pl', pr', d') :: stack' => qs_outer f v a pl' pr' d' stack'
      end
  end.

(** [npy_get_msb] *)
Definition npy_get_msb (num : Z) : Z := Z.log2 num.

Definition aquicksort (v : list string) (tosort : list nat) : option (list nat) :=
  let num := Z.of_nat (length tosort) in
  qs_outer (S (length tosort)) v tosort 0 (num - 1) (npy_get_msb num * 2) [].

(** [Series.argsort(kind="quicksort")] on the time markers. *)
Definition argsort (v : list string) : option (list nat) :=
  aquicksort v (seq O (length v)).

(** [participant_data.sort_values(TIME_POINT)]: the rows taken in the
    order of the argsort of their time markers. *)
Definition sort_values (rows : list TimePointResolver.SurveyRow)
    : option (list TimePointResolver.SurveyRow) :=
  idx ← argsort (map TimePointResolver.authored_at_gmt rows);
  mapM (fun i => rows !! i) idx.

Definition empty_row : TimePointResolver.SurveyRow :=
  {| TimePointResolver.participant_id := ""; TimePointResolver.authored_at_gmt := "";
     TimePointResolver.answers := [] |}.

(** The same insertion sort applied directly to rows. *)
Definition insertion_sort_rows (rows : list TimePointResolver.SurveyRow)
    : list TimePointResolver.SurveyRow :=
  insertion_sort (fun r1 r2 => str_lt (TimePointResolver.authored_at_gmt r1)
                                      (TimePointResolver.authored_at_gmt r2)) rows.

End NumpySort.

(** Number of time points before [t] whose progress cell in the
    participant's progress row [r] is NaN. *)
Definition incomplete_before (survey_name : string) (r : TimePointResolver.ProgressRow)
    (t : TimePoint) : Z :=
  Z.of_nat (length (List.filter
    (fun o => Z.ltb (tp_index o) (tp_index t) &&
              TimePointResolver.value_is_nan
                (TimePointResolver.prog_cell r (TimePointResolver.progress_column survey_name o)))
    all_time_points)).

(** ** Score aggregator ([get_single_score], [get_defined_scores]) *)
Module ScoreAggregator.

(** A cell of a survey row: NaN or the stored answer key. *)
Inductive Answer :=
  | ANaN
  | AKey (k : string).

(** One entry of the parsed answer options: a key and an optional score
    (the JSON parsing of the options string is not modelled). *)
Record AnswerDefinition := {
  key : string;
  score : option Z
}.

(** A row of the survey definition table: title, answer type and the
    options cell (NaN for free text). *)
Record DefinitionRow := {
  title : string;
  answer_type : string;
  options : option (list AnswerDefinition)
}.

(** [load_answer_definitions(survey, question_title)]: the first row with
    the title ([index[0]], an [IndexError] when there is none); yes/no
    questions get a fixed definition without scores. *)
Definition load_answer_definitions (definitions : list DefinitionRow) (question_title : string)
    : res (option (list AnswerDefinition)) :=
  match List.filter (fun d => str_eq (title d) question_title) definitions with
  | [] => Raise IndexError
  | d :: _ =>
      if str_eq (answer_type d) "YESNO_CHOICE"
      then Ok (Some [ {| key := "yes"; score := None |}; {| key := "no"; score := None |} ])
      else Ok (options d)
  end.

Definition answer_matches (ad : AnswerDefinition) (answer : Answer) : bool :=
  match answer with
  | ANaN => false
  | AKey k => str_eq (key ad) k
  end.

(** The Likert fallback used for the comprehension survey. *)
Definition comprehension_scores (k : string) : option Z :=
  if str_eq k "strongly_disagree" then Some 1%Z
  else if str_eq k "disagree" then Some 2%Z
  else if str_eq k "agree" then Some 3%Z
  else if str_eq k "strongly_agree" then Some 4%Z
  else None.

(** [get_single_score(survey, question_title, answer)]; [is_comprehension]
    is [survey is Survey.COMPREHENSION].  The survey itself is not passed,
    so [UndefinedScoresError] carries the constant prefix of its message
    [f"Define scores for {survey.name}"]. *)
Definition get_single_score (is_comprehension : bool) (definitions : list DefinitionRow)
    (question_title : string) (answer : Answer) : res (option Z) :=
  let* answer_definitions := load_answer_definitions definitions question_title in
  match answer_definitions with
  | None => Raise (TypeError "'NoneType' object is not iterable")
  | Some ads =>
      match List.find (fun ad => answer_matches ad answer) ads with
      | None => Ok None
      | Some ad =>
          match score ad with
          | Some sc => Ok (Some sc)
          | None =>
              if is_comprehension then
                match comprehension_scores (key ad) with
                | Some sc => Ok (Some sc)
                | None => Raise (KeyError (key ad))
                end
              else Raise (UndefinedScoresError "Define scores")
          end
      end
  end.

(** A survey result row: participant id and its cells by column label. *)
Record ResultRow := {
  row_participant_id : string;
  row_cells : list (string * Answer)
}.

Definition row_get (row : ResultRow) (column : string) : option Answer :=
  option_map snd (List.find (fun c => str_eq (fst c) column) (row_cells row)).

(** The inner loop of [get_defined_scores] for one row, over the rows of
    the definition table: returns [(score, all_not_answered)]. *)
Fixpoint score_questions (is_comprehension : bool) (definitions : list DefinitionRow)
    (row : ResultRow) (questions : list DefinitionRow) (sc : Z) (all_not_answered : bool)
    : res (Z * bool) :=
  match questions with
  | [] => Ok (sc, all_not_answered)
  | q :: qs =>
      match row_get row (title q) with
      | None => score_questions is_comprehension definitions row qs sc all_not_answered
      | Some answer =>
          let* answer_score := get_single_score is_comprehension definitions (title q) answer in
          match answer_score with
          | None => score_questions is_comprehension definitions row qs sc all_not_answered
          | Some s => score_questions is_comprehension definitions row qs (sc + s) false
          end
      end
  end.

Definition participant_score (is_comprehension : bool) (definitions : list DefinitionRow)
    (row : ResultRow) : res (option Z) :=
  let* result := score_questions is_comprehension definitions row definitions 0%Z true in
  let (sc, all_not_answered) := result in
  Ok (if all_not_answered then None else Some sc).

(** [get_defined_scores(survey, data)]: one [(participant, score)] per row. *)
Fixpoint get_defined_scores (is_comprehension : bool) (definitions : list DefinitionRow)
    (data : list ResultRow) : res (list (string * option Z)) :=
  match data with
  | [] => Ok []
  | row :: rows =>
      let* s := participant_score is_comprehension definitions row in
      let* rest := get_defined_scores is_comprehension definitions rows in
      Ok ((row_participant_id row, s) :: rest)
  end.

(** The per-question outcomes of [get_single_score] for the questions of
    the definition table present in the row, in table order. *)
Definition question_scores (is_comprehension : bool) (definitions : list DefinitionRow)
    (row : ResultRow) : list (res (option Z)) :=
  omap (fun q => option_map (get_single_score is_comprehension definitions (title q))
                            (row_get row (title q))) definitions.

Definition sum_defined (scores : list (option Z)) : Z :=
  fold_right Z.add 0%Z (map (default 0%Z) scores).

Definition all_none (scores : list (option Z)) : bool :=
  forallb (fun o => match o with None => true | Some _ => false end) scores.

End ScoreAggregator.

(** ** Comprehension scoring ([modules/survey_results/comprehension.py]) *)

Module Comprehension.

(** One entry of a participant's ground truth, the dict
    [{"genotype": ..., "phenotype": ...}]. *)
Record GeneResult := {
  genotype : string;
  phenotype : string
}.

(** [participant_data["genes"]]: gene symbol to ground truth. *)
Definition Genes := gmap string GeneResult.


(** [StudyGroup] ([modules/definitions/types.py]) and its [.value]. *)
Inductive StudyGroup :=
  | PHARME
  | COUNSELING.

Definition study_group_value (g : StudyGroup) : string :=
  match g with
  | PHARME => "PharMe"
  | COUNSELING => "Counseling"
  end.

(** [for study_group in StudyGroup]: the members in definition order. *)
Definition study_groups : list StudyGroup := [PHARME; COUNSELING].

(** A row of the REDCap data table returned by [get_redcap_data()]: the
    participant id and the study-group cell (NaN while no group is
    assigned).  Without a REDCap data file the table has no rows. *)
Record RedcapRow := {
  redcap_participant_id : string;
  redcap_study_group : TimePointResolver.Cell
}.

(** [_get_study_group_string]: the study group of the first row with the
    participant id; [.to_list()[0]] raises [IndexError] without one. *)
Definition get_study_group_string (redcap_data : list RedcapRow) (participant_id : string)
    : res TimePointResolver.Cell :=
  match List.filter (fun r => str_eq (redcap_participant_id r) participant_id) redcap_data with
  | r :: _ => Ok (redcap_study_group r)
  | [] => Raise IndexError
  end.

(** [get_study_group]: [None] for a NaN cell ([value_is_nan]); [next(...)]
    raises [StopIteration] when no study group has the value. *)
Definition get_study_group (redcap_data : list RedcapRow) (participant_id : string)
    : res (option StudyGroup) :=
  let* study_group_string := get_study_group_string redcap_data participant_id in
  match study_group_string with
  | TimePointResolver.NaN => Ok None
  | TimePointResolver.Val v =>
      match List.find (fun g => str_eq (study_group_value g) v) study_groups with
      | Some g => Ok (Some g)
      | None => Raise StopIteration
      end
  end.

(** A row written by [_write_preprocessing_log] to the log, together with
    the participant id written to the secret log.  The timestamp comes
    from the clock and is not modelled. *)
Record LogEntry := {
  log_study_group : string;
  log_question : string;
  log_answer : string;
  log_notes : string;
  log_participant_id : string
}.

(** [_write_preprocessing_log]: [get_study_group(participant_id).value]
    raises [AttributeError] when the study group is [None]. *)
Definition write_preprocessing_log (redcap_data : list RedcapRow)
    (question answer notes participant_id : string) : res LogEntry :=
  let* study_group := get_study_group redcap_data participant_id in
  match study_group with
  | None => Raise (AttributeError "'NoneType' object has no attribute 'value'")
  | Some g =>
      Ok {| log_study_group := study_group_value g; log_question := question;
            log_answer := answer; log_notes := notes;
            log_participant_id := participant_id |}
  end.

(** [d[k]] on a Python dict. *)
Definition dict_get {V} (d : gmap string V) (k : string) : res V :=
  match d !! k with
  | Some v => Ok v
  | None => Raise (KeyError k)
  end.

(** [str.lower] on the ASCII letters the phenotypes are written with. *)
Definition ascii_lower (c : ascii) : ascii :=
  let n := nat_of_ascii c in
  if (65 <=? n)%nat && (n <=? 90)%nat then ascii_of_nat (n + 32) else c.

Fixpoint lower (s : string) : string :=
  match s with
  | EmptyString => EmptyString
  | String c rest => String (ascii_lower c) (lower rest)
  end.

Definition ALSO_PHENOTYPE_ADAPTIONS_COMMUNICATED : gmap string string := ∅.



(** [str.replace(old, new)] for a non-empty [old]: left to right,
    non-overlapping.  Every step consumes a character of [s]. *)
Fixpoint replace_fuel (fuel : nat) (old new s : string) : string :=
  match fuel with
  | O => s
  | S fuel' =>
      match s with
      | EmptyString => EmptyString
      | String c rest =>
          if String.prefix old s
          then (new ++ replace_fuel fuel' old new
                  (substring (String.length old)
                     (String.length s - String.length old) s))%string
          else String c (replace_fuel fuel' old new rest)
      end
  end.

Definition str_replace (old new s : string) : string :=
  replace_fuel (S (String.length s)) old new s.

Definition get_medication_from_question (question : string) : string :=
  str_replace ", could you take it at standard dosage?" ""
    (str_replace
       "According to your PGx test result, if you ever needed to take the medication "
       "" question).













End Comprehension.

(** ** Statistical comparator ([modules/utils/statistics.py]) *)

Module Statistics.
Import Floats.
#[local] Set Warnings "-inexact-float".

(** Python floats are IEEE binary64: Rocq's primitive floats, whose
    comparisons are false on NaN as in Python. *)

Inductive EffectInterpretation := SMALL | MEDIUM | LARGE.

Definition EFFECT_MEASURES : list string := ["d"; "r"].
Definition ASSOCIATION_MEASURES : list string := ["V"; "ɸ"].

Definition interpret_effect (effect_method : string) (effect : float)
    : res EffectInterpretation :=
  let applicable_effect_methods := EFFECT_MEASURES ++ ASSOCIATION_MEASURES in
  if negb (existsb (str_eq effect_method) applicable_effect_methods) then
    Raise (RaisedException
             ("Need to add effect interpretations for " ++ effect_method ++ "!"))
  else
    let absolute_effect := PrimFloat.abs effect in
    (* absolute_upper_interpretation_thresholds: SMALL 0.3, MEDIUM 0.5 *)
    if PrimFloat.ltb 0.5 absolute_effect then Ok LARGE
    else if PrimFloat.ltb 0.3 absolute_effect then Ok MEDIUM
    else Ok SMALL.

(** [ComparisonResult(p_value, effect_size, notes="")]. *)
Record McNemarResult := {
  p_value : float;
  effect_size : float;
  notes : string
}.

(** [crosstab(first, second)]: the two series are aligned on the
    participant id, so its input is one pair of answers per paired
    participant.  Index and columns are the sorted distinct answers. *)
Record Crosstab := {
  ct_index : list string;
  ct_columns : list string;
  ct_counts : list (list nat)
}.

Definition crosstab (paired_answers : list (string * string)) : Crosstab :=
  let index := merge_sort String.le (remove_dups (map fst paired_answers)) in
  let columns := merge_sort String.le (remove_dups (map snd paired_answers)) in
  {| ct_index := index;
     ct_columns := columns;
     ct_counts :=
       map (fun a => map (fun b =>
              length (List.filter (fun p => str_eq (fst p) a && str_eq (snd p) b)
                        paired_answers)) columns) index |}.

Section Categorical.
(** statsmodels' [mcnemar(table).pvalue] and the phi coefficient
    [sqrt(chi2 / n)] of the table. *)
Variable mcnemar_pvalue : Crosstab -> float.
Variable phi_coefficient : Crosstab -> float.

(** [are_time_points_different_categorical] from the paired answers on. *)
Definition are_time_points_different_categorical
    (paired_answers : list (string * string)) : res McNemarResult :=
  let table := crosstab paired_answers in
  let rows := length (ct_index table) in
  let columns := length (ct_columns table) in
  if Nat.eqb rows 0 then
    Ok {| p_value := nan; effect_size := nan; notes := "No paired data" |}
  else if Nat.eqb rows 1 && Nat.eqb columns 1 then
    Ok {| p_value := 1; effect_size := 1; notes := "Same paired data" |}
  else if Nat.ltb 2 rows || Nat.ltb 2 columns then
    Raise (RaisedException "No 2x2 table; adapt data or implement Bhapkar test!")
  else
    Ok {| p_value := mcnemar_pvalue table; effect_size := phi_coefficient table;
          notes := "" |}.

End Categorical.

End Statistics.

(** ** Non-inferiority t-test ([modules/utils/statistics.py]), over the reals *)

Module NonInferiority.
Local Open Scope R_scope.

Fixpoint sum (l : list R) : R :=
  match l with
  | [] => 0
  | x :: l => x + sum l
  end.

(** [np.mean] and [np.std] (population standard deviation, ddof=0). *)
Definition np_mean (l : list R) : R := sum l / INR (length l).

Definition np_std (l : list R) : R :=
  sqrt (sum (map (fun x => (x - np_mean l) ^ 2) l) / INR (length l)).

Section TTest.
(** The survival function of Student's t distribution:
    [t_sf df x = P(T_df > x)]. *)
Variable t_sf : R -> R -> R.

(** scipy's [ttest_ind_from_stats] with [equal_var=True]: pooled variance,
    and the two-sided p-value [2 * sf(|t|)] of the symmetric t
    distribution. *)
Definition ttest_ind_from_stats (mean1 std1 nobs1 mean2 std2 nobs2 : R) : R * R :=
  let df := nobs1 + nobs2 - 2 in
  let svar := ((nobs1 - 1) * std1 ^ 2 + (nobs2 - 1) * std2 ^ 2) / df in
  let denom := sqrt (svar * (1 / nobs1 + 1 / nobs2)) in
  let t := (mean1 - mean2) / denom in
  (t, 2 * t_sf df (Rabs t)).

(** [_test_non_inferiority_with_t_test]: the statistic and the p-value. *)
Definition test_non_inferiority_with_t_test (control_group_data test_group_data : list R)
    (relative_difference : R) : R * R :=
  let control_group_mean := np_mean control_group_data in
  let delta := relative_difference * control_group_mean in
  let threshold := control_group_mean - delta in
  let (statistic, two_sided_pvalue) :=
    ttest_ind_from_stats threshold (np_std control_group_data)
      (INR (length control_group_data)) (np_mean test_group_data)
      (np_std test_group_data) (INR (length test_group_data)) in
  let pvalue := two_sided_pvalue / 2 in
  (statistic, pvalue).

End TTest.

End NonInferiority.

(** ** Comparison results ledger ([modules/utils/comparisons.py]) *)

Module ResultsLedger.

(** One row of the results table, cells as read back from the CSV file. *)
Record LedgerRow := {
  comparison : string;
  item : string;
  title : string;
  p_value : string;
  statistic : string;
  effect_size : string;
  effect_method : string;
  notes : string
}.

(** The results file: absent, or the rows [pd.read_csv] loads, labelled by
    their RangeIndex. *)
Definition Store := option (list LedgerRow).

Definition multiple_rows_warning (row_data : LedgerRow) : string :=
  "⚠️ Found multiple rows for " ++ comparison row_data ++ ", " ++ item row_data.

(** [_write_to_results_table]: the store written and the lines printed. *)
Definition write_to_results_table (store : Store) (row_data : LedgerRow)
    : Store * list string :=
  match store with
  | None => (Some [row_data], [])
  | Some results_data =>
      let present_row :=
        List.filter (fun p => str_eq (comparison (snd p)) (comparison row_data)
                              && str_eq (item (snd p)) (item row_data))
          (zip (seq 0 (length results_data)) results_data) in
      match present_row with
      | [] => (Some (results_data ++ [row_data]), [])
      | [(index, _)] => (Some (<[index := row_data]> results_data), [])
      | _ => (Some results_data, [multiple_rows_warning row_data])
      end
  end.

End ResultsLedger.

(** ** Phenotype questions ([_analyze_phenotype_answer]) *)

Module PhenotypeAnswers.
Import Comprehension.

(** [s.split(sep)] with an explicit one-character separator: never empty,
    consecutive separators give empty parts. *)
Fixpoint split_on (sep : ascii) (s : string) : list string :=
  match s with
  | EmptyString => [EmptyString]
  | String c rest =>
      if ascii_dec c sep then EmptyString :: split_on sep rest
      else match split_on sep rest with
           | part :: parts => String c part :: parts
           | [] => [String c EmptyString]
           end
  end.

(** [question.split(" ")[-1].replace(":", "")]. *)
Definition get_gene_from_question (question : string) : string :=
  str_replace ":" "" (List.last (split_on " " question) "").

(** [s.split(" ")[0]]. *)
Definition first_word (s : string) : string :=
  match split_on " " s with
  | part :: _ => part
  | [] => ""
  end.

(** [_analyze_phenotype_answer]: the verdict and the log rows written.
    [ALSO_PHENOTYPE_ADAPTIONS_COMMUNICATED[participant_genes]] indexes a
    dict with a dict, which raises [TypeError]; it is only evaluated when
    the participant id is a key of that (empty) dict. *)
Definition analyze_phenotype_answer (redcap_data : list RedcapRow)
    (participant_id column participant_answer : string)
    (participant_genes : Genes) : res (bool * list LogEntry) :=
  let gene := get_gene_from_question column in
  let* gene_result := dict_get participant_genes gene in
  let actual_phenotype := lower (first_word (phenotype gene_result)) in
  let answer_correct := str_eq participant_answer actual_phenotype in
  if answer_correct then Ok (true, []) else
  let* gene_result' := dict_get participant_genes gene in
  let wrong_answer_message := (gene ++ " " ++ phenotype gene_result')%string in
  match ALSO_PHENOTYPE_ADAPTIONS_COMMUNICATED !! participant_id with
  | Some _ => Raise (TypeError "unhashable type: 'dict'")
  | None =>
      let* entry := write_preprocessing_log redcap_data gene participant_answer
                      wrong_answer_message participant_id in
      Ok (false, [entry])
  end.

End PhenotypeAnswers.

(** ** Categorical study-group comparison, median answer and paired data
    ([modules/utils/statistics.py]) *)

Module CategoricalStatistics.
Import Floats TimePointResolver.

(** [Series.unique()]: first-appearance order, NaN kept once. *)
Definition cell_same (a b : Cell) : bool :=
  match a, b with
  | NaN, NaN => true
  | Val x, Val y => str_eq x y
  | _, _ => false
  end.

Fixpoint unique_cells_aux (seen : list Cell) (l : list Cell) : list Cell :=
  match l with
  | [] => []
  | c :: l' =>
      if existsb (cell_same c) seen then unique_cells_aux seen l'
      else c :: unique_cells_aux (c :: seen) l'
  end.

Definition unique_cells (l : list Cell) : list Cell := unique_cells_aux [] l.

(** [data[column].value_counts().get(level, 0)]: NaN is not counted. *)
Definition value_count (data : list Cell) (level : Cell) : nat :=
  match level with
  | NaN => 0
  | Val x =>
      length (List.filter (fun c => match c with Val y => str_eq y x | NaN => false end) data)
  end.

Section ComparisonTable.
(** The iteration order of [set(levels)]: a Python set of the levels. *)
Variable set_iteration : list Cell -> list Cell.

(** [_create_comparison_table]: one column of answers per study group. *)
Definition create_comparison_table (comparison_data : list (list Cell)) : list (list nat) :=
  let levels := concat (map unique_cells comparison_data) in
  List.filter (fun level_counts => negb (forallb (Nat.eqb 0) level_counts))
    (map (fun level => map (fun data => value_count data level) comparison_data)
       (set_iteration levels)).

End ComparisonTable.

Definition float_of_Z (z : Z) : float :=
  if (z <? 0)%Z then PrimFloat.opp (PrimFloat.of_uint63 (Uint63.of_Z (- z)))
  else PrimFloat.of_uint63 (Uint63.of_Z z).

Section CramersV.
(** [chi2_contingency(table, correction=False)[0]]: a library call, which
    may raise (for instance on a zero expected frequency). *)
Variable chi_squared : list (list nat) -> res float.

(** [_get_cramers_v]; [np.array(table).shape] is [(0,)] for an empty
    table and [(rows, columns)] otherwise. *)
Definition get_cramers_v (table : list (list nat)) : res (float * float) :=
  let* x2 := chi_squared table in
  let n := list_sum (map list_sum table) in
  let minimum_dimension :=
    (match table with
     | [] => 0
     | row :: _ => Z.of_nat (Nat.min (length table) (length row))
     end - 1)%Z in
  if Z.eqb minimum_dimension 0 then Ok (x2, nan)
  else Ok (x2, PrimFloat.sqrt ((x2 / float_of_Z (Z.of_nat n)) / float_of_Z minimum_dimension)).

End CramersV.

Record FisherResult := {
  fisher_p_value : float;
  fisher_effect_size : float
}.

(** [are_study_groups_different_categorical] from the answers of each
    study group on; [fisher_pvalue] is scipy's Monte Carlo [fisher_exact],
    a library call that may raise. *)
Definition are_study_groups_different_categorical
    (set_iteration : list Cell -> list Cell) (fisher_pvalue : list (list nat) -> res float)
    (chi_squared : list (list nat) -> res float) (comparison_data : list (list Cell))
    : res FisherResult :=
  let table := create_comparison_table set_iteration comparison_data in
  let* pvalue := fisher_pvalue table in
  let* result := get_cramers_v chi_squared table in
  Ok {| fisher_p_value := pvalue; fisher_effect_size := snd result |}.

(** Python [==] on answers: false whenever NaN is involved. *)
Definition py_eq (a b : Cell) : bool :=
  match a, b with
  | Val x, Val y => str_eq x y
  | _, _ => false
  end.

Section Median.
(** [data.sort_values(key=lambda value: sort_by_label(value, label_definition))]. *)
Variable sort_by_label : list Cell -> list Cell.

(** [get_median_answer]. *)
Definition get_median_answer (data : list Cell) : list Cell :=
  let sorted_data := sort_by_label data in
  let n := length sorted_data in
  if Nat.leb n 2 then sorted_data
  else if Nat.odd n then
    let median_index := ((n - 1) / 2)%nat in
    [nth median_index sorted_data NaN]
  else
    let second_index := (n / 2)%nat in
    let first_index := (second_index - 1)%nat in
    if py_eq (nth first_index sorted_data NaN) (nth second_index sorted_data NaN)
    then [nth first_index sorted_data NaN]
    else [nth first_index sorted_data NaN; nth second_index sorted_data NaN].

End Median.

(** A row of [data[[PARTICIPANT_ID, column]]]. *)
Record AnswerRow := {
  row_pid : string;
  row_answer : Cell
}.

Section PairedData.
(** [set_index(PARTICIPANT_ID, drop=False).sort_index()]. *)
Variable sort_index : list AnswerRow -> list AnswerRow.

(** [_get_paired_data]. *)
Definition get_paired_data (first_data second_data : list AnswerRow)
    : list AnswerRow * list AnswerRow :=
  let present_first_data := List.filter (fun r => negb (value_is_nan (row_answer r))) first_data in
  let present_second_data := List.filter (fun r => negb (value_is_nan (row_answer r))) second_data in
  let second_ids := unique_ids_aux [] (map row_pid present_second_data) in
  let paired_ids :=
    List.filter (fun pid => existsb (str_eq pid) second_ids) (map row_pid present_first_data) in
  let paired_first_data :=
    List.filter (fun r => existsb (str_eq (row_pid r)) paired_ids) present_first_data in
  let paired_second_data :=
    List.filter (fun r => existsb (str_eq (row_pid r)) paired_ids) present_second_data in
  (sort_index paired_first_data, sort_index paired_second_data).

End PairedData.

End CategoricalStatistics.

(** ** Cohen's d ([_get_cohens_d]), over the reals *)

Module EffectSizes.
Import NonInferiority.
Local Open Scope R_scope.

(** [np.std(group, ddof=1)]; exact real arithmetic, so a group of one
    value divides by zero, which is 0 here and NaN in numpy. *)
Definition np_std_ddof1 (l : list R) : R :=
  sqrt (sum (map (fun x => (x - np_mean l) ^ 2) l) / (INR (length l) - 1)).

Definition get_cohens_d (group1 group2 : list R) : R :=
  let mean1 := np_mean group1 in
  let mean2 := np_mean group2 in
  let std1 := np_std_ddof1 group1 in
  let std2 := np_std_ddof1 group2 in
  let n1 := INR (length group1) in
  let n2 := INR (length group2) in
  let pooled_std := sqrt (((n1 - 1) * std1 ^ 2 + (n2 - 1) * std2 ^ 2) / (n1 + n2 - 2)) in
  (mean1 - mean2) / pooled_std.

End EffectSizes.

(** ** Concrete inputs used by the examples below *)
Module ResolverInputs.
Import TimePointResolver.

(** Rows of one participant sharing one time marker; the answer column
    tells them apart. *)
Definition tied_row (i : nat) : SurveyRow :=
  {| participant_id := "p1";
     authored_at_gmt := "2024-03-01 09:00:00";
     answers := [("row", String (Ascii.ascii_of_nat (65 + i)) EmptyString)] |}.

Definition tied_rows (n : nat) : list SurveyRow := map tied_row (seq 0 n).

(** Two administrations of the comprehension survey to "p1" and one to "p2". *)
Definition survey_rows : list SurveyRow :=
  [ {| participant_id := "p1"; authored_at_gmt := "2024-05-02 10:00:00"; answers := [] |};
    {| participant_id := "p2"; authored_at_gmt := "2024-03-01 12:00:00"; answers := [] |};
    {| participant_id := "p1"; authored_at_gmt := "2024-02-01 10:00:00"; answers := [] |} ].

(** "p1" completed T0 and T90 but not T30; "p2" completed only T0. *)
Definition p1_progress : ProgressRow :=
  {| prog_participant_id := "p1";
     prog_cell := fun c => if str_eq c (progress_column "comprehension" ONE_MONTH_FOLLOW_UP)
                           then NaN else Val "2024-01-01" |}.

Definition p2_progress : ProgressRow :=
  {| prog_participant_id := "p2";
     prog_cell := fun c => if str_eq c (progress_column "comprehension" RESULT_RETURN)
                           then Val "2024-01-01" else NaN |}.

Definition progress_data : ProgressData :=
  {| prog_columns := map (progress_column "comprehension") all_time_points;
     prog_rows := [p1_progress; p2_progress] |}.

End ResolverInputs.

Module ScoreInputs.
Import ScoreAggregator.

(** Two scored single-choice questions; the participant answered the
    first with its zero-scored option and left the second empty. *)
Definition definitions : list DefinitionRow :=
  [ {| title := "q1"; answer_type := "SINGLE_CHOICE";
       options := Some [ {| key := "never"; score := Some 0%Z |};
                         {| key := "often"; score := Some 2%Z |} ] |};
    {| title := "q2"; answer_type := "SINGLE_CHOICE";
       options := Some [ {| key := "never"; score := Some 0%Z |};
                         {| key := "often"; score := Some 2%Z |} ] |} ].

Definition zero_row : ResultRow :=
  {| row_participant_id := "p1"; row_cells := [("q1", AKey "never"); ("q2", ANaN)] |}.

End ScoreInputs.

Module ComprehensionInputs.
Import Comprehension.

(** A ground truth that has no record for DPYD nor CYP2D6. *)
Definition panel_without_dpyd : Genes :=
  list_to_map [("CYP2C19", {| genotype := "*1/*1"; phenotype := "Normal Metabolizer" |});
               ("CYP2C9", {| genotype := "*1/*1"; phenotype := "Normal Metabolizer" |})]%string.

Definition ibuprofen_question :=
  "According to your PGx test result, if you ever needed to take the medication ibuprofen, could you take it at standard dosage?".


(** REDCap data with participant p1 in the PharMe group. *)
Definition redcap_p1_pharme : list RedcapRow :=
  [ {| redcap_participant_id := "p1"; redcap_study_group := TimePointResolver.Val "PharMe" |} ].


End ComprehensionInputs.

Module NonInferiorityInputs.
Local Open Scope R_scope.

(** Control cohort with mean 20, so threshold 18 at relative margin 0.1,
    and two test cohorts with the control's spread: mean 21 (above the
    control mean) and mean 15 (below the threshold).  Three equally spaced
    values are exactly normal for Shapiro-Wilk (W = 1, p = 1). *)
Definition control_scores : list R := [18; 20; 22].
Definition test_scores_above : list R := [19; 21; 23].
Definition test_scores_below : list R := [13; 15; 17].

End NonInferiorityInputs.

Module LedgerInputs.
Import ResultsLedger.

Definition ledger_row (c i t : string) : LedgerRow :=
  {| comparison := c; item := i; title := t; p_value := "0.5"; statistic := "t-test";
     effect_size := "0.1"; effect_method := "d"; notes := "" |}.

Definition ledger : list LedgerRow :=
  [ledger_row "time_points" "comprehension" "old";
   ledger_row "study_groups" "comprehension" "kept";
   ledger_row "time_points" "usability" "kept"].

End LedgerInputs.

Module ScoreEdgeInputs.
Import ScoreAggregator.

(** A survey whose second question is free text (no options). *)
Definition free_text_definitions : list DefinitionRow :=
  [ {| title := "q1"; answer_type := "SINGLE_CHOICE";
       options := Some [ {| key := "never"; score := Some 0%Z |};
                         {| key := "often"; score := Some 2%Z |} ] |};
    {| title := "comment"; answer_type := "TEXT"; options := None |} ].

Definition yes_no_definitions : list DefinitionRow :=
  [ {| title := "taking"; answer_type := "YESNO_CHOICE"; options := None |} ].

End ScoreEdgeInputs.

Module CategoricalInputs.
Import TimePointResolver.

(** Answers of the two study groups to one categorical question. *)
Definition pharme_answers : list Cell := [Val "yes"; NaN; Val "no"; Val "yes"].
Definition counseling_answers : list Cell := [Val "yes"; Val "yes"; NaN].

(** Both study groups answer "yes" whenever they answer. *)
Definition unanimous_pharme_answers : list Cell := [Val "yes"; NaN].
Definition unanimous_counseling_answers : list Cell := [Val "yes"; Val "yes"].

(** [sort_index] on the participant-id index: a merge sort by id. *)
Definition sort_by_pid (l : list CategoricalStatistics.AnswerRow)
    : list CategoricalStatistics.AnswerRow :=
  merge_sort (fun a b => String.le (CategoricalStatistics.row_pid a)
                                   (CategoricalStatistics.row_pid b)) l.

(** One question answered at two time points. *)
Definition first_time_point_rows : list CategoricalStatistics.AnswerRow :=
  [ {| CategoricalStatistics.row_pid := "p2"; CategoricalStatistics.row_answer := Val "3" |};
    {| CategoricalStatistics.row_pid := "p1"; CategoricalStatistics.row_answer := Val "4" |};
    {| CategoricalStatistics.row_pid := "p3"; CategoricalStatistics.row_answer := NaN |} ].
Definition second_time_point_rows : list CategoricalStatistics.AnswerRow :=
  [ {| CategoricalStatistics.row_pid := "p1"; CategoricalStatistics.row_answer := Val "5" |};
    {| CategoricalStatistics.row_pid := "p3"; CategoricalStatistics.row_answer := Val "2" |};
    {| CategoricalStatistics.row_pid := "p2"; CategoricalStatistics.row_answer := Val "1" |};
    {| CategoricalStatistics.row_pid := "p4"; CategoricalStatistics.row_answer := Val "1" |} ].

End CategoricalInputs.

(* ================================================================== *)
(** * Proofs *)

Lemma str_eq_true a b : str_eq a b = true <-> a = b.
Proof. unfold str_eq. apply String.eqb_eq. Qed.

Lemma str_eq_refl a : str_eq a a = true.
Proof. apply str_eq_true. reflexivity. Qed.

Module TimePointResolverProofs.
Import TimePointResolver.

Section WithSort.
Variable sort_values : list SurveyRow -> list SurveyRow.
Hypothesis sort_values_perm : forall l, Permutation (sort_values l) l.

Lemma completed_survey_ok progress pid sn r t :
  In (progress_column sn t) (prog_columns progress) ->
  List.filter (fun r => str_eq (prog_participant_id r) pid) (prog_rows progress) = [r] ->
  participant_completed_survey progress pid sn t
  = Ok (negb (value_is_nan (prog_cell r (progress_column sn t)))).
Proof.
  intros Hin Hrow. unfold participant_completed_survey.
  assert (existsb (str_eq (progress_column sn t)) (prog_columns progress) = true) as ->.
  { apply existsb_exists. exists (progress_column sn t). split; [exact Hin | apply str_eq_refl]. }
  simpl. rewrite Hrow. reflexivity.
Qed.

Lemma adjust_index_ok progress pid sn r t :
  (forall o, In (progress_column sn o) (prog_columns progress)) ->
  List.filter (fun r => str_eq (prog_participant_id r) pid) (prog_rows progress) = [r] ->
  adjust_index sn progress pid t all_time_points (tp_index t)
  = Ok (tp_index t - incomplete_before sn r t)%Z.
Proof.
  intros Hcols Hrow. unfold incomplete_before, all_time_points.
  destruct t; simpl;
    rewrite ?(completed_survey_ok progress pid sn r _ (Hcols _) Hrow); simpl;
    repeat (destruct (value_is_nan _); simpl); try reflexivity; f_equal; lia.
Qed.

Lemma select_row_pid rows progress sn q t r :
  select_participant_row sort_values sn progress rows q t = Ok (Some r) ->
  participant_id r = q.
Proof.
  unfold select_participant_row.
  destruct (participant_completed_survey progress q sn t) as [[]|];
    cbn [res_bind negb]; try discriminate.
  destruct (adjust_index sn progress q t all_time_points (tp_index t)) as [i|];
    cbn [res_bind]; try discriminate.
  match goal with |- context [Z.gtb ?a ?b] => destruct (Z.gtb a b) end; [discriminate|].
  intros H. injection H as H.
  apply list_elem_of_lookup_2 in H.
  rewrite (sort_values_perm _) in H.
  apply list_elem_of_In, filter_In in H as [_ Hq].
  apply str_eq_true. exact Hq.
Qed.

(** Rows of participant [p] in the collected table. *)
Lemma collect_rows_pid rows progress sn t p pids acc out :
  collect_rows sort_values sn progress rows t pids acc = Ok out ->
  List.filter (fun r => str_eq (participant_id r) p) out
  = List.filter (fun r => str_eq (participant_id r) p) acc
    ++ concat (map (fun q =>
         match select_participant_row sort_values sn progress rows q t with
         | Ok (Some r) => if str_eq q p then [r] else []
         | _ => []
         end) pids).
Proof.
  revert acc. induction pids as [|q pids IH]; intros acc H; simpl in *.
  - injection H as <-. rewrite app_nil_r. reflexivity.
  - destruct (select_participant_row sort_values sn progress rows q t) as [sel|e] eqn:Hsel;
      simpl in H; [|discriminate].
    rewrite (IH _ H). rewrite app_assoc. f_equal.
    destruct sel as [r|]; [|rewrite app_nil_r; reflexivity].
    rewrite List.filter_app. f_equal. simpl.
    rewrite (select_row_pid _ _ _ _ _ _ Hsel). reflexivity.
Qed.

End WithSort.

Lemma unique_ids_aux_spec seen l x :
  In x (unique_ids_aux seen l) <-> In x l /\ ~ In x seen.
Proof.
  revert seen. induction l as [|y l IH]; intros seen; simpl; [tauto|].
  destruct (existsb (str_eq y) seen) eqn:E.
  - rewrite IH. apply existsb_exists in E as [z [Hz Hyz]].
    apply str_eq_true in Hyz. subst z. split; [tauto|].
    intros [[<-|H] H']; [contradiction|tauto].
  - simpl. rewrite IH. simpl.
    assert (~ In y seen) as Hy.
    { intros Hin. assert (existsb (str_eq y) seen = true) as E'.
      { apply existsb_exists. exists y. split; [exact Hin|apply str_eq_refl]. }
      congruence. }
    split.
    + intros [<-|[H1 H2]]; [tauto|]. split; [tauto|]. intros H; apply H2; tauto.
    + intros [[<-|H1] H2]; [tauto|]. destruct (String.eqb_spec y x) as [<-|Hne]; [tauto|].
      right. split; [exact H1|]. intros [?|?]; [congruence|tauto].
Qed.

Lemma unique_ids_aux_nodup seen l : List.NoDup (unique_ids_aux seen l).
Proof.
  revert seen. induction l as [|y l IH]; intros seen; simpl; [constructor|].
  destruct (existsb (str_eq y) seen); [apply IH|].
  constructor; [|apply IH].
  rewrite unique_ids_aux_spec. simpl. tauto.
Qed.

Lemma concat_map_single {A B} (f : A -> list B) (l : list A) p fp :
  List.NoDup l -> In p l -> (forall q, q <> p -> f q = []) -> f p = fp ->
  concat (map f l) = fp.
Proof.
  intros Hnd Hin Hother Hp. induction Hnd as [|q l Hq Hnd IH]; [contradiction|].
  simpl. destruct Hin as [<-|Hin].
  - rewrite Hp. replace (concat (map f l)) with (@nil B); [apply app_nil_r|].
    clear -Hq Hother. induction l as [|y l IH]; [reflexivity|]. simpl.
    rewrite Hother; [|intros ->; apply Hq; left; reflexivity].
    apply IH. intros H; apply Hq; right; exact H.
  - rewrite Hother; [apply IH; exact Hin|]. intros ->. contradiction.
Qed.

Lemma select_row_formula sort_values sn progress rows pid r t :
  (forall o, In (progress_column sn o) (prog_columns progress)) ->
  List.filter (fun r => str_eq (prog_participant_id r) pid) (prog_rows progress) = [r] ->
  prog_cell r (progress_column sn t) <> NaN ->
  select_participant_row sort_values sn progress rows pid t
  = (let pdata := sort_values (List.filter (fun x => str_eq (participant_id x) pid) rows) in
     let k := (tp_index t - incomplete_before sn r t)%Z in
     Ok (if Z.gtb k (Z.of_nat (length pdata) - 1)%Z then None
         else pdata !! Z.to_nat k)).
Proof.
  intros Hcols Hrow Hcell. unfold select_participant_row.
  rewrite (completed_survey_ok progress pid sn r t (Hcols t) Hrow).
  destruct (prog_cell r (progress_column sn t)) eqn:E; [contradiction|].
  cbn [res_bind negb value_is_nan].
  rewrite (adjust_index_ok progress pid sn r t Hcols Hrow). cbn [res_bind].
  destruct (Z.gtb _ _); reflexivity.
Qed.

Lemma in_unique_participant_ids rows pid :
  List.filter (fun x => str_eq (participant_id x) pid) rows <> [] ->
  In pid (unique_participant_ids rows).
Proof.
  intros Hne. unfold unique_participant_ids. apply unique_ids_aux_spec.
  split; [|simpl; tauto].
  destruct (List.filter (fun x => str_eq (participant_id x) pid) rows) as [|x l] eqn:E;
    [contradiction|].
  assert (In x (List.filter (fun x => str_eq (participant_id x) pid) rows)) as Hx
    by (rewrite E; left; reflexivity).
  apply filter_In in Hx as [Hx Hp]. apply str_eq_true in Hp. subst pid.
  apply in_map. exact Hx.
Qed.

(** Rows of participant [pid] in the table, when the run succeeds. *)
Lemma filter_results_pid sort_values sn progress rows t pid out :
  (forall l, Permutation (sort_values l) l) ->
  filter_results_by_time_point sort_values sn progress rows t = Ok out ->
  List.filter (fun x => str_eq (participant_id x) pid) out
  = concat (map (fun q =>
       match select_participant_row sort_values sn progress rows q t with
       | Ok (Some r) => if str_eq q pid then [r] else []
       | _ => []
       end) (unique_participant_ids rows)).
Proof.
  intros Hperm H. unfold filter_results_by_time_point in H.
  rewrite (collect_rows_pid sort_values Hperm _ _ _ _ _ _ _ _ H). reflexivity.
Qed.

(** ** C1: skip compensation *)

(** Claim C1.  In general, for a participant with one progress row whose
    columns all exist, and a completed time point [t], the row selected is
    the one at index [tp_index t] minus the number of earlier time points
    whose progress cell is NaN, in the participant's rows sorted by time
    marker (no row when that index is past the last row).  In particular,
    with T0 and T90 complete, T30 NaN and at least two rows: requesting
    T90 selects sorted row 1 (also in the resulting table), and requesting
    T30 selects no row. *)
Theorem filter_results_skip_compensation
    (sort_values : list SurveyRow -> list SurveyRow)
    (Hperm : forall l, Permutation (sort_values l) l)
    (sn : string) (progress : ProgressData) (rows : list SurveyRow)
    (pid : string) (r : ProgressRow)
    (Hcols : forall o, In (progress_column sn o) (prog_columns progress))
    (Hrow : List.filter (fun r => str_eq (prog_participant_id r) pid) (prog_rows progress) = [r]) :
  let pdata := sort_values (List.filter (fun x => str_eq (participant_id x) pid) rows) in
  (forall t, prog_cell r (progress_column sn t) <> NaN ->
     let k := (tp_index t - incomplete_before sn r t)%Z in
     select_participant_row sort_values sn progress rows pid t
     = Ok (if Z.gtb k (Z.of_nat (length pdata) - 1)%Z then None
           else pdata !! Z.to_nat k))
  /\
  (prog_cell r (progress_column sn RESULT_RETURN) <> NaN ->
   prog_cell r (progress_column sn ONE_MONTH_FOLLOW_UP) = NaN ->
   prog_cell r (progress_column sn THREE_MONTH_FOLLOW_UP) <> NaN ->
   2 <= length (List.filter (fun x => str_eq (participant_id x) pid) rows) ->
   exists row, pdata !! 1 = Some row
     /\ select_participant_row sort_values sn progress rows pid THREE_MONTH_FOLLOW_UP
        = Ok (Some row)
     /\ select_participant_row sort_values sn progress rows pid ONE_MONTH_FOLLOW_UP
        = Ok None
     /\ (forall out,
           filter_results_by_time_point sort_values sn progress rows THREE_MONTH_FOLLOW_UP
           = Ok out ->
           List.filter (fun x => str_eq (participant_id x) pid) out = [row])
     /\ (forall out,
           filter_results_by_time_point sort_values sn progress rows ONE_MONTH_FOLLOW_UP
           = Ok out ->
           List.filter (fun x => str_eq (participant_id x) pid) out = [])).
Proof.
  intros pdata. split.
  { intros t Ht. apply select_row_formula; assumption. }
  intros H0 H30 H90 Hlen.
  assert (length pdata = length (List.filter (fun x => str_eq (participant_id x) pid) rows))
    as Hpl by (apply Permutation_length, Hperm).
  destruct (pdata !! 1) as [row|] eqn:Hrow1;
    [|apply lookup_ge_None in Hrow1; lia].
  assert (Hsel90 : select_participant_row sort_values sn progress rows pid THREE_MONTH_FOLLOW_UP
                   = Ok (Some row)).
  { rewrite (select_row_formula sort_values sn progress rows pid r _ Hcols Hrow H90).
    cbv zeta. fold pdata.
    unfold incomplete_before, all_time_points. cbn [List.filter tp_index Z.ltb Z.compare].
    destruct (prog_cell r (progress_column sn RESULT_RETURN)); [contradiction|].
    rewrite H30. cbn.
    rewrite Z.gtb_ltb.
    replace (Z.of_nat (length pdata) - 1 <? 2 - Z.of_nat 1)%Z with false
      by (symmetry; apply Z.ltb_ge; lia).
    exact (f_equal Ok Hrow1). }
  assert (Hsel30 : select_participant_row sort_values sn progress rows pid ONE_MONTH_FOLLOW_UP
                   = Ok None).
  { unfold select_participant_row.
    rewrite (completed_survey_ok progress pid sn r _ (Hcols _) Hrow), H30. reflexivity. }
  assert (Hin : In pid (unique_participant_ids rows)).
  { apply in_unique_participant_ids. intros E. rewrite E in Hlen. simpl in Hlen. lia. }
  exists row. split; [reflexivity|]. split; [exact Hsel90|]. split; [exact Hsel30|].
  split; intros out Hout; rewrite (filter_results_pid _ _ _ _ _ pid _ Hperm Hout);
    (eapply concat_map_single;
      [apply unique_ids_aux_nodup | exact Hin | |]);
    [ intros q Hq; destruct (select_participant_row _ _ _ _ q _) as [[x|]|]; try reflexivity;
      destruct (str_eq q pid) eqn:E; [apply str_eq_true in E; contradiction|reflexivity]
    | rewrite Hsel90, str_eq_refl; reflexivity
    | intros q Hq; destruct (select_participant_row _ _ _ _ q _) as [[x|]|]; try reflexivity;
      destruct (str_eq q pid) eqn:E; [apply str_eq_true in E; contradiction|reflexivity]
    | rewrite Hsel30; reflexivity ].
Qed.

(** ** C2: incomplete time points are skipped *)

(** Claim C2.  If the participant's (unique) progress row has a NaN cell
    for the requested time point, processing the participant does not
    raise and selects no row, and a successful run yields a table without
    any row of that participant. *)
Theorem filter_results_skips_incomplete
    (sort_values : list SurveyRow -> list SurveyRow)
    (Hperm : forall l, Permutation (sort_values l) l)
    (sn : string) (progress : ProgressData) (rows : list SurveyRow)
    (pid : string) (r : ProgressRow) (t : TimePoint)
    (Hcol : In (progress_column sn t) (prog_columns progress))
    (Hrow : List.filter (fun r => str_eq (prog_participant_id r) pid) (prog_rows progress) = [r])
    (Hnan : prog_cell r (progress_column sn t) = NaN) :
  select_participant_row sort_values sn progress rows pid t = Ok None
  /\ (forall out, filter_results_by_time_point sort_values sn progress rows t = Ok out ->
        Forall (fun x => participant_id x <> pid) out).
Proof.
  assert (Hsel : select_participant_row sort_values sn progress rows pid t = Ok None).
  { unfold select_participant_row.
    rewrite (completed_survey_ok progress pid sn r t Hcol Hrow), Hnan. reflexivity. }
  split; [exact Hsel|].
  intros out Hout.
  pose proof (filter_results_pid _ _ _ _ _ pid _ Hperm Hout) as Hf.
  assert (Hnil : List.filter (fun x => str_eq (participant_id x) pid) out = []).
  { rewrite Hf. clear Hf Hout. induction (unique_participant_ids rows) as [|q l IH];
      [reflexivity|]. simpl. rewrite IH, app_nil_r.
    destruct (str_eq q pid) eqn:E.
    - apply str_eq_true in E. subst q. rewrite Hsel. reflexivity.
    - destruct (select_participant_row _ _ _ _ q _) as [[x|]|]; reflexivity. }
  apply List.Forall_forall. intros x Hx Hxp.
  assert (In x (List.filter (fun x => str_eq (participant_id x) pid) out)) as Hin.
  { apply filter_In. split; [exact Hx|]. apply str_eq_true. exact Hxp. }
  rewrite Hnil in Hin. contradiction.
Qed.

End TimePointResolverProofs.

Module NumpySortProofs.
Import TimePointResolver NumpySort.

Section InsertionSort.
Context {A : Type} (lt : A -> A -> bool).

Lemma ins_rev_perm x r : Permutation (ins_rev lt x r) (x :: r).
Proof.
  induction r as [|y ys IH]; simpl; [reflexivity|].
  destruct (lt x y); [|reflexivity].
  rewrite IH. constructor.
Qed.

Lemma fold_ins_rev_perm l r :
  Permutation (fold_left (fun r x => ins_rev lt x r) l r) (l ++ r).
Proof.
  revert r. induction l as [|x l IH]; intros r; simpl; [reflexivity|].
  rewrite IH, ins_rev_perm. symmetry. apply Permutation_middle.
Qed.

Lemma insertion_sort_perm l : Permutation (insertion_sort lt l) l.
Proof.
  unfold insertion_sort. rewrite <- Permutation_rev.
  rewrite fold_ins_rev_perm, app_nil_r. reflexivity.
Qed.

(** Elements moved past each other are never both selected by [P]. *)
Variable P : A -> bool.
Hypothesis lt_not_both : forall x y, lt x y = true -> P x = true -> P y = true -> False.

Lemma ins_rev_filter x r :
  List.filter P (rev (ins_rev lt x r)) = List.filter P (rev r) ++ List.filter P [x].
Proof.
  induction r as [|y ys IH]; simpl; [reflexivity|].
  destruct (lt x y) eqn:Hxy; simpl.
  - rewrite !List.filter_app, IH. simpl. rewrite <- !app_assoc. f_equal.
    destruct (P x) eqn:Px, (P y) eqn:Py; simpl; try reflexivity.
    exfalso. exact (lt_not_both x y Hxy Px Py).
  - rewrite !List.filter_app. simpl. rewrite <- !app_assoc. reflexivity.
Qed.

Lemma fold_ins_rev_filter l r :
  List.filter P (rev (fold_left (fun r x => ins_rev lt x r) l r))
  = List.filter P (rev r) ++ List.filter P l.
Proof.
  revert r. induction l as [|x l IH]; intros r; simpl.
  - rewrite app_nil_r. reflexivity.
  - rewrite IH, ins_rev_filter, <- app_assoc. f_equal. simpl.
    destruct (P x); reflexivity.
Qed.

Lemma insertion_sort_stable l : List.filter P (insertion_sort lt l) = List.filter P l.
Proof. unfold insertion_sort. rewrite fold_ins_rev_filter. reflexivity. Qed.

End InsertionSort.

Lemma map_ins_rev {A B} (lt : A -> A -> bool) (lt' : B -> B -> bool) (f : A -> B) x r :
  (forall a b, lt a b = lt' (f a) (f b)) ->
  map f (ins_rev lt x r) = ins_rev lt' (f x) (map f r).
Proof.
  intros Hlt. induction r as [|y ys IH]; simpl; [reflexivity|].
  rewrite <- Hlt. destruct (lt x y); simpl; [rewrite IH|]; reflexivity.
Qed.

Lemma map_insertion_sort {A B} (lt : A -> A -> bool) (lt' : B -> B -> bool) (f : A -> B) l :
  (forall a b, lt a b = lt' (f a) (f b)) ->
  map f (insertion_sort lt l) = insertion_sort lt' (map f l).
Proof.
  intros Hlt. unfold insertion_sort. rewrite map_rev. f_equal.
  change (@nil B) with (map f (@nil A)).
  generalize (@nil A). induction l as [|x l IH]; intros r; simpl; [reflexivity|].
  rewrite IH, (map_ins_rev lt lt' f x r Hlt). reflexivity.
Qed.

(** With at most [SMALL_QUICKSORT + 1] elements numpy's introsort is a
    single insertion sort. *)
Lemma argsort_small (v : list string) :
  length v <= 16 ->
  argsort v = Some (insertion_sort (less v) (seq 0 (length v))).
Proof.
  intros Hn. unfold argsort, aquicksort. rewrite length_seq.
  set (n := length v) in *.
  cbn [qs_outer].
  assert (Z.ltb (npy_get_msb (Z.of_nat n) * 2) 0 = false) as ->.
  { apply Z.ltb_ge. unfold npy_get_msb. pose proof (Z.log2_nonneg (Z.of_nat n)). lia. }
  cbn [qs_partitions].
  assert (Z.gtb (Z.of_nat n - 1 - 0) SMALL_QUICKSORT = false) as ->.
  { unfold SMALL_QUICKSORT. rewrite Z.gtb_ltb. apply Z.ltb_ge. lia. }
  cbn. unfold insertion_sort_range.
  replace (Z.to_nat 0) with 0%nat by reflexivity.
  replace (Z.to_nat (Z.of_nat n - 1 - 0 + 1)) with n by lia.
  replace (Z.to_nat (Z.of_nat n - 1 + 1)) with n by lia.
  rewrite drop_0, take_0. simpl.
  rewrite take_ge by (rewrite length_seq; lia).
  rewrite drop_ge by (rewrite length_seq; lia).
  rewrite app_nil_r. reflexivity.
Qed.

Lemma map_nth_seq_all {A} (l : list A) d :
  map (fun i => nth i l d) (seq 0 (length l)) = l.
Proof.
  induction l as [|x l IH]; simpl; [reflexivity|].
  f_equal. rewrite <- seq_shift, map_map. exact IH.
Qed.

Lemma mapM_lookup (rows : list SurveyRow) (idx : list nat) :
  Forall (fun i => i < length rows) idx ->
  mapM (fun i => rows !! i) idx = Some (map (fun i => nth i rows empty_row) idx).
Proof.
  induction 1 as [|i idx Hi _ IH]; [reflexivity|].
  simpl. destruct (lookup_lt_is_Some_2 rows i Hi) as [x Hx].
  rewrite Hx. simpl. rewrite IH. simpl.
  rewrite (nth_lookup_Some rows i empty_row x Hx). reflexivity.
Qed.

Lemma sort_values_small (rows : list SurveyRow) :
  length rows <= 16 ->
  NumpySort.sort_values rows = Some (insertion_sort_rows rows).
Proof.
  intros Hn. unfold NumpySort.sort_values.
  rewrite argsort_small by (rewrite length_map; exact Hn).
  simpl. rewrite length_map.
  rewrite mapM_lookup.
  - f_equal. unfold insertion_sort_rows.
    rewrite (map_insertion_sort _ (fun r1 r2 => str_lt (authored_at_gmt r1) (authored_at_gmt r2))
               (fun i => nth i rows empty_row)).
    + rewrite map_nth_seq_all. reflexivity.
    + intros a b. unfold less.
      change "" with (authored_at_gmt empty_row). rewrite !map_nth. reflexivity.
  - apply List.Forall_forall. intros i Hi.
    apply (Permutation_in _ (insertion_sort_perm _ _)), in_seq in Hi. lia.
Qed.

Lemma str_lt_irrefl s : str_lt s s = false.
Proof.
  unfold str_lt. assert (String.compare s s = Eq) as ->; [|reflexivity].
  induction s as [|c s IH]; simpl; [reflexivity|].
  unfold Ascii.compare. rewrite N.compare_refl. exact IH.
Qed.

Lemma insertion_sort_rows_perm rows : Permutation (insertion_sort_rows rows) rows.
Proof. apply insertion_sort_perm. Qed.

Lemma insertion_sort_rows_stable rows k :
  List.filter (fun r => str_eq (authored_at_gmt r) k) (insertion_sort_rows rows)
  = List.filter (fun r => str_eq (authored_at_gmt r) k) rows.
Proof.
  apply insertion_sort_stable.
  intros x y Hlt Px Py. apply str_eq_true in Px, Py.
  rewrite Px, Py, str_lt_irrefl in Hlt. discriminate.
Qed.

End NumpySortProofs.

(** ** C9: ties in the time marker *)
Module SortTieProofs.
Import TimePointResolver NumpySort NumpySortProofs ResolverInputs.

(** Claim C9 (counterexample).  Seventeen rows of one participant with the
    same time marker: pandas' default sort returns them as input rows
    0, 14, 13, 12, 11, 10, 9, 15, 8, 6, 5, 4, 3, 2, 1, 7, 16, so the tied
    rows do not keep their input order and position 1 holds input row 14. *)
Lemma sort_values_ties_reordered :
  NumpySort.sort_values (tied_rows 17)
  = Some (map tied_row [0; 14; 13; 12; 11; 10; 9; 15; 8; 6; 5; 4; 3; 2; 1; 7; 16]%nat)
  /\ (map tied_row [0; 14; 13; 12; 11; 10; 9; 15; 8; 6; 5; 4; 3; 2; 1; 7; 16]%nat) !! 1%nat
     = Some (tied_row 14)
  /\ List.filter (fun r => str_eq (authored_at_gmt r) "2024-03-01 09:00:00")
       (map tied_row [0; 14; 13; 12; 11; 10; 9; 15; 8; 6; 5; 4; 3; 2; 1; 7; 16]%nat)
     <> List.filter (fun r => str_eq (authored_at_gmt r) "2024-03-01 09:00:00") (tied_rows 17).
Proof.
  split; [vm_compute; reflexivity|].
  split; [reflexivity|].
  vm_compute. discriminate.
Qed.

(** Claim C9 (amended).  For a participant with at most 16 rows, the
    time-marker sort is numpy's final insertion sort and keeps tied rows
    in input order: for every marker value [k], the rows with marker [k]
    appear in the sorted rows in the same order as in the input. *)
Theorem sort_values_stable_small_input (rows : list SurveyRow) (Hn : length rows <= 16) :
  exists sorted, NumpySort.sort_values rows = Some sorted
    /\ forall k, List.filter (fun r => str_eq (authored_at_gmt r) k) sorted
                 = List.filter (fun r => str_eq (authored_at_gmt r) k) rows.
Proof.
  exists (insertion_sort_rows rows). split.
  - apply sort_values_small. exact Hn.
  - apply insertion_sort_rows_stable.
Qed.

Lemma sort_values_stable_small_input_witness :
  length (tied_rows 16) <= 16 /\
  exists sorted, NumpySort.sort_values (tied_rows 16) = Some sorted
    /\ forall k, List.filter (fun r => str_eq (authored_at_gmt r) k) sorted
                 = List.filter (fun r => str_eq (authored_at_gmt r) k) (tied_rows 16).
Proof.
  split; [simpl; lia|].
  apply (sort_values_stable_small_input (tied_rows 16)). simpl. lia.
Defined.

End SortTieProofs.

(** ** Witnesses for C1 and C2 on the concrete survey above *)
Module ResolverWitnesses.
Import TimePointResolver NumpySort NumpySortProofs ResolverInputs TimePointResolverProofs.

Lemma filter_results_skip_compensation_witness :
  (forall o, In (progress_column "comprehension" o) (prog_columns progress_data))
  /\ List.filter (fun r => str_eq (prog_participant_id r) "p1") (prog_rows progress_data)
     = [p1_progress]
  /\ select_participant_row insertion_sort_rows "comprehension" progress_data survey_rows "p1"
       THREE_MONTH_FOLLOW_UP
     = Ok (Some {| participant_id := "p1"; authored_at_gmt := "2024-05-02 10:00:00";
                   answers := [] |}).
Proof.
  assert (Hcols : forall o, In (progress_column "comprehension" o) (prog_columns progress_data))
    by (intros []; simpl; tauto).
  assert (Hrow : List.filter (fun r => str_eq (prog_participant_id r) "p1")
                   (prog_rows progress_data) = [p1_progress]) by reflexivity.
  split; [exact Hcols|]. split; [exact Hrow|].
  destruct (filter_results_skip_compensation insertion_sort_rows insertion_sort_rows_perm
              "comprehension" progress_data survey_rows "p1" p1_progress Hcols Hrow)
    as [_ H].
  destruct H as [row [Hrow1 [H90 _]]];
    [vm_compute; discriminate | vm_compute; reflexivity | vm_compute; discriminate
    | simpl; lia |].
  rewrite H90. vm_compute in Hrow1. injection Hrow1 as <-. reflexivity.
Defined.

Lemma filter_results_skips_incomplete_witness :
  In (progress_column "comprehension" ONE_MONTH_FOLLOW_UP) (prog_columns progress_data)
  /\ List.filter (fun r => str_eq (prog_participant_id r) "p2") (prog_rows progress_data)
     = [p2_progress]
  /\ prog_cell p2_progress (progress_column "comprehension" ONE_MONTH_FOLLOW_UP) = NaN
  /\ select_participant_row insertion_sort_rows "comprehension" progress_data survey_rows "p2"
       ONE_MONTH_FOLLOW_UP = Ok None
  /\ (forall out, filter_results_by_time_point insertion_sort_rows "comprehension" progress_data
                    survey_rows ONE_MONTH_FOLLOW_UP = Ok out ->
                  Forall (fun x => participant_id x <> "p2") out).
Proof.
  assert (Hcol : In (progress_column "comprehension" ONE_MONTH_FOLLOW_UP)
                   (prog_columns progress_data)) by (simpl; tauto).
  split; [exact Hcol|]. split; [reflexivity|]. split; [vm_compute; reflexivity|].
  apply (filter_results_skips_incomplete insertion_sort_rows insertion_sort_rows_perm
           "comprehension" progress_data survey_rows "p2" p2_progress ONE_MONTH_FOLLOW_UP Hcol);
    [reflexivity | vm_compute; reflexivity].
Defined.

End ResolverWitnesses.

(** ** C3: score aggregation *)
Module ScoreAggregatorProofs.
Import ScoreAggregator ScoreInputs.

Lemma score_questions_spec is_comp defs row qs sc b scores :
  omap (fun q => option_map (get_single_score is_comp defs (title q)) (row_get row (title q))) qs
  = map Ok scores ->
  score_questions is_comp defs row qs sc b
  = Ok ((sc + sum_defined scores)%Z, b && all_none scores).
Proof.
  revert sc b scores. induction qs as [|q qs IH]; intros sc b scores H; simpl in *.
  - destruct scores; [|discriminate]. simpl. rewrite Z.add_0_r, andb_true_r. reflexivity.
  - destruct (row_get row (title q)) as [a|]; simpl in H; [|apply IH; exact H].
    destruct scores as [|s0 scores]; [discriminate|]. simpl in H.
    injection H as Hs0 Hrest. rewrite Hs0. cbn [res_bind].
    destruct s0 as [s|].
    + rewrite (IH _ _ _ Hrest). unfold sum_defined, all_none. simpl.
      rewrite andb_false_r. f_equal. f_equal. lia.
    + rewrite (IH _ _ _ Hrest). reflexivity.
Qed.

(** Claim C3.  When every question of the definition table present in
    the row yields a score or no score without raising, the aggregate is
    null exactly when all of them yield no score, and otherwise the sum of
    the defined scores (undefined ones add 0); in particular one score 0
    among otherwise undefined scores gives 0, not null. *)
Theorem participant_score_policy (is_comp : bool) (defs : list DefinitionRow)
    (row : ResultRow) (scores : list (option Z))
    (Hscores : question_scores is_comp defs row = map Ok scores) :
  participant_score is_comp defs row
  = Ok (if all_none scores then None else Some (sum_defined scores))
  /\ (forall pre post, scores = pre ++ Some 0%Z :: post ->
        all_none pre = true -> all_none post = true ->
        participant_score is_comp defs row = Ok (Some 0%Z)).
Proof.
  assert (Hmain : participant_score is_comp defs row
                  = Ok (if all_none scores then None else Some (sum_defined scores))).
  { unfold participant_score. rewrite (score_questions_spec _ _ _ _ 0%Z true _ Hscores).
    reflexivity. }
  split; [exact Hmain|].
  intros pre post -> Hpre Hpost. rewrite Hmain.
  assert (forall l, all_none l = true -> sum_defined l = 0%Z) as Hz.
  { induction l as [|[] l IH]; simpl; [reflexivity|discriminate|]. intros H.
    unfold sum_defined in *. simpl. rewrite IH by exact H. reflexivity. }
  assert (all_none (pre ++ Some 0%Z :: post) = false) as ->.
  { unfold all_none. rewrite forallb_app. simpl. apply andb_false_r. }
  assert (forall l1 l2, sum_defined (l1 ++ l2) = (sum_defined l1 + sum_defined l2)%Z) as Happ.
  { intros l1 l2. induction l1 as [|o l1 IH]; [reflexivity|].
    unfold sum_defined in *. simpl. rewrite IH. lia. }
  rewrite Happ, (Hz pre Hpre).
  change (sum_defined (Some 0%Z :: post)) with (0 + sum_defined post)%Z.
  rewrite (Hz post Hpost). reflexivity.
Qed.

Lemma participant_score_policy_witness :
  question_scores false definitions zero_row = map Ok [Some 0%Z; None]
  /\ participant_score false definitions zero_row = Ok (Some 0%Z).
Proof.
  split; [vm_compute; reflexivity|].
  destruct (participant_score_policy false definitions zero_row [Some 0%Z; None])
    as [H _]; [vm_compute; reflexivity|].
  rewrite H. reflexivity.
Defined.

End ScoreAggregatorProofs.

Module ComprehensionProofs.
Import Comprehension ComprehensionInputs.

Lemma str_eq_false a b : a <> b -> str_eq a b = false.
Proof. intros H. destruct (str_eq a b) eqn:E; [|reflexivity]. apply str_eq_true in E. contradiction. Qed.


Lemma dict_get_some {V} (d : gmap string V) k v : d !! k = Some v -> dict_get d k = Ok v.
Proof. unfold dict_get. intros ->. reflexivity. Qed.

Lemma dict_get_none {V} (d : gmap string V) k : d !! k = None -> dict_get d k = Raise (KeyError k).
Proof. unfold dict_get. intros ->. reflexivity. Qed.





Lemma string_app_nil_r (x : string) : (x ++ "")%string = x.
Proof.
  induction x as [|c x IH]; [reflexivity|].
  change (String c (x ++ "") = String c x)%string. rewrite IH. reflexivity.
Qed.




End ComprehensionProofs.

Module StatisticsProofs.
Import Floats Statistics.

(** Claim C10.  For each of the effect-size methods "d", "r", "V" and
    "ɸ", a NaN effect size is interpreted as SMALL: both threshold
    comparisons are false on NaN, so neither LARGE nor MEDIUM is chosen and
    nothing is raised. *)
Theorem interpret_effect_nan_small (effect_method : string)
    (Hmethod : In effect_method (EFFECT_MEASURES ++ ASSOCIATION_MEASURES)) :
  interpret_effect effect_method nan = Ok SMALL.
Proof.
  simpl in Hmethod.
  destruct Hmethod as [<-|[<-|[<-|[<-|[]]]]]; reflexivity.
Qed.

Lemma interpret_effect_nan_small_witness :
  In "ɸ" (EFFECT_MEASURES ++ ASSOCIATION_MEASURES)
  /\ interpret_effect "ɸ" nan = Ok SMALL.
Proof.
  split; [simpl; tauto|].
  apply interpret_effect_nan_small. simpl. tauto.
Defined.

(** Claim C7, the failing input.  When every paired participant answers
    "yes" at the first time point and "no" at the second, the crosstab is
    1x1 (row "yes", column "no") and the comparison returns p = 1 and
    effect 1 with the note "Same paired data", whatever McNemar's test
    would give, although no pair has the same answer twice. *)
Theorem categorical_all_changed_reported_same
    (mcnemar_pvalue phi_coefficient : Crosstab -> float) :
  let paired_answers := [("yes", "no"); ("yes", "no")] in
  List.Forall (fun p => fst p <> snd p) paired_answers
  /\ crosstab paired_answers
     = {| ct_index := ["yes"]; ct_columns := ["no"]; ct_counts := [[2%nat]] |}
  /\ are_time_points_different_categorical mcnemar_pvalue phi_coefficient paired_answers
     = Ok {| p_value := 1; effect_size := 1; notes := "Same paired data" |}.
Proof.
  cbv zeta. split; [|split].
  - repeat constructor; simpl; discriminate.
  - vm_compute. reflexivity.
  - vm_compute. reflexivity.
Qed.

End StatisticsProofs.

Module NonInferiorityProofs.
Import NonInferiority NonInferiorityInputs.
Local Open Scope R_scope.

Lemma control_mean : np_mean control_scores = 20.
Proof. unfold np_mean, control_scores. simpl. field. Qed.

Lemma above_mean : np_mean test_scores_above = 21.
Proof. unfold np_mean, test_scores_above. simpl. field. Qed.

Lemma below_mean : np_mean test_scores_below = 15.
Proof. unfold np_mean, test_scores_below. simpl. field. Qed.

Lemma above_below_std : np_std test_scores_above = np_std test_scores_below.
Proof.
  unfold np_std. rewrite above_mean, below_mean.
  unfold test_scores_above, test_scores_below. simpl. f_equal. field.
Qed.

(** Claim C6.  For any t distribution, the p-value of the t-test branch
    for a test cohort of mean 21 equals the p-value for a test cohort of
    mean 15, against the control cohort of mean 20 at relative margin 0.1
    (threshold 18): the statistics are opposite, and halving the two-sided
    p-value keeps only their absolute value. *)
Theorem non_inferiority_t_test_ignores_direction (t_sf : R -> R -> R) :
  np_mean control_scores = 20 /\ np_mean test_scores_above = 21
  /\ np_mean test_scores_below = 15
  /\ fst (test_non_inferiority_with_t_test t_sf control_scores test_scores_above (1/10))
     = - fst (test_non_inferiority_with_t_test t_sf control_scores test_scores_below (1/10))
  /\ snd (test_non_inferiority_with_t_test t_sf control_scores test_scores_above (1/10))
     = snd (test_non_inferiority_with_t_test t_sf control_scores test_scores_below (1/10)).
Proof.
  split; [exact control_mean|]. split; [exact above_mean|]. split; [exact below_mean|].
  unfold test_non_inferiority_with_t_test, ttest_ind_from_stats.
  rewrite control_mean, above_mean, below_mean, above_below_std.
  set (d := R_sqrt.sqrt _).
  assert (Hopp : 20 - 1 / 10 * 20 - 21 = - (20 - 1 / 10 * 20 - 15)) by field.
  simpl fst. simpl snd. rewrite Hopp, Rdiv_opp_l, Rabs_Ropp. split; reflexivity.
Qed.

End NonInferiorityProofs.

Module ResultsLedgerProofs.
Import ResultsLedger LedgerInputs.

Lemma zip_seq_filter (f : LedgerRow -> bool) (k : nat) (rows : list LedgerRow) :
  map snd (List.filter (fun p => f (snd p)) (zip (seq k (length rows)) rows))
  = List.filter f rows.
Proof.
  revert k. induction rows as [|r rows IH]; intros k; [reflexivity|].
  simpl. destruct (f r); simpl; rewrite IH; reflexivity.
Qed.

Lemma zip_seq_in (k i : nat) (r : LedgerRow) (rows : list LedgerRow) :
  In (i, r) (zip (seq k (length rows)) rows) -> (k <= i)%nat /\ rows !! (i - k) = Some r.
Proof.
  revert k. induction rows as [|r' rows IH]; intros k H; [destruct H|].
  simpl in H. destruct H as [H|H].
  - injection H as -> ->. rewrite Nat.sub_diag. split; [lia|reflexivity].
  - destruct (IH (S k) H) as [Hle Hl]. split; [lia|].
    replace (i - k)%nat with (S (i - S k)) by lia. exact Hl.
Qed.

(** Claim C8.  Upserting a row keyed by (comparison, item): without a
    results file the file is created with exactly that row; otherwise a
    row is appended when no row has the key, the one row with the key is
    overwritten at its position when exactly one has it, and nothing
    changes but a warning is printed when several have it.  In every case
    each existing row with another key keeps its position and content. *)
Theorem write_to_results_table_upsert (store : Store) (row_data : LedgerRow) :
  let matches r := str_eq (comparison r) (comparison row_data)
                   && str_eq (item r) (item row_data) in
  (store = None -> write_to_results_table store row_data = (Some [row_data], []))
  /\ (forall rows, store = Some rows ->
       (List.filter matches rows = [] ->
          write_to_results_table store row_data = (Some (rows ++ [row_data]), []))
       /\ (length (List.filter matches rows) = 1%nat ->
          exists i r, rows !! i = Some r /\ matches r = true
            /\ write_to_results_table store row_data = (Some (<[i := row_data]> rows), []))
       /\ ((2 <= length (List.filter matches rows))%nat ->
          write_to_results_table store row_data
          = (Some rows, [multiple_rows_warning row_data]))
       /\ (forall rows' printed,
          write_to_results_table store row_data = (Some rows', printed) ->
          forall j r, rows !! j = Some r -> matches r = false -> rows' !! j = Some r)).
Proof.
  cbv zeta. split; [intros ->; reflexivity|].
  intros rows ->. unfold write_to_results_table.
  set (matches := fun r => str_eq (comparison r) (comparison row_data)
                           && str_eq (item r) (item row_data)).
  set (present := List.filter (fun p => matches (snd p)) (zip (seq 0 (length rows)) rows)).
  assert (Hpresent : map snd present = List.filter matches rows)
    by apply zip_seq_filter.
  change (List.filter (fun p => str_eq (comparison (snd p)) (comparison row_data)
                                && str_eq (item (snd p)) (item row_data))
            (zip (seq 0 (length rows)) rows)) with present.
  assert (Hone : forall i r0, present = [(i, r0)] ->
            rows !! i = Some r0 /\ matches r0 = true).
  { intros i r0 Hp. assert (Hin : In (i, r0) present) by (rewrite Hp; left; reflexivity).
    unfold present in Hin. apply filter_In in Hin as [Hin Hm].
    apply zip_seq_in in Hin as [_ Hl]. rewrite Nat.sub_0_r in Hl. split; assumption. }
  split; [|split; [|split]].
  - intros Hnone. rewrite <- Hpresent in Hnone.
    destruct present; [reflexivity|discriminate].
  - intros Hlen. rewrite <- Hpresent, length_map in Hlen.
    destruct present as [|[i r0] [|]] eqn:Ep; try discriminate.
    destruct (Hone i r0 eq_refl) as [Hl Hm].
    exists i, r0. split; [exact Hl|]. split; [exact Hm|reflexivity].
  - intros Hlen. rewrite <- Hpresent, length_map in Hlen.
    destruct present as [|[i r0] [|p2 ps]] eqn:Ep; simpl in Hlen; try lia.
    reflexivity.
  - intros rows' printed Hw j r Hj Hm.
    destruct present as [|[i r0] [|p2 ps]] eqn:Ep;
      injection Hw as <- _.
    + rewrite lookup_app_l; [exact Hj|]. apply lookup_lt_is_Some_1. eauto.
    + destruct (Hone i r0 eq_refl) as [Hl Hm0].
      rewrite list_lookup_insert_ne; [exact Hj|].
      intros ->. rewrite Hl in Hj. injection Hj as ->. unfold matches in *. cbv beta in *. congruence.
    + exact Hj.
Qed.

Lemma write_to_results_table_upsert_witness :
  write_to_results_table (Some ledger) (ledger_row "time_points" "comprehension" "new")
  = (Some [ledger_row "time_points" "comprehension" "new";
           ledger_row "study_groups" "comprehension" "kept";
           ledger_row "time_points" "usability" "kept"], []).
Proof.
  destruct (write_to_results_table_upsert (Some ledger)
              (ledger_row "time_points" "comprehension" "new")) as [_ Hsome].
  destruct (Hsome ledger eq_refl) as [_ [Hone _]].
  destruct (Hone ltac:(vm_compute; reflexivity)) as [i [r [Hl [Hm ->]]]].
  assert (i = 0%nat) as ->.
  { destruct i as [|[|[|i]]]; [reflexivity| | |]; vm_compute in Hl; try discriminate;
      injection Hl as Hr; subst r; vm_compute in Hm; discriminate. }
  reflexivity.
Defined.

End ResultsLedgerProofs.

(* ------------------------------------------------------------------ *)
(** ** Further properties of the time-point resolver *)

Module ResolverInvariants.
Import TimePointResolver NumpySort NumpySortProofs ResolverInputs TimePointResolverProofs.

Lemma select_row_from_input sort_values sn progress rows pid t r :
  (forall l, Permutation (sort_values l) l) ->
  select_participant_row sort_values sn progress rows pid t = Ok (Some r) ->
  In r rows.
Proof.
  intros Hperm. unfold select_participant_row.
  destruct (participant_completed_survey progress pid sn t) as [[]|];
    cbn [res_bind negb]; try discriminate.
  destruct (adjust_index sn progress pid t all_time_points (tp_index t)) as [i|];
    cbn [res_bind]; try discriminate.
  match goal with |- context [Z.gtb ?a ?b] => destruct (Z.gtb a b) end; [discriminate|].
  intros H. injection H as H.
  apply list_elem_of_lookup_2 in H.
  rewrite (Hperm _) in H.
  apply list_elem_of_In, filter_In in H as [H _]. exact H.
Qed.

Lemma collect_rows_from_input sort_values sn progress rows t pids acc out :
  (forall l, Permutation (sort_values l) l) ->
  collect_rows sort_values sn progress rows t pids acc = Ok out ->
  forall r, In r out -> In r acc \/ In r rows.
Proof.
  intros Hperm. revert acc. induction pids as [|q pids IH]; intros acc H r Hr; simpl in H.
  - injection H as <-. left. exact Hr.
  - destruct (select_participant_row sort_values sn progress rows q t) as [[x|]|e] eqn:Hsel;
      simpl in H; try discriminate.
    + destruct (IH _ H r Hr) as [Hin|Hin]; [|right; exact Hin].
      apply in_app_or in Hin as [Hin|[<-|[]]]; [left; exact Hin|].
      right. eapply select_row_from_input; eassumption.
    + exact (IH _ H r Hr).
Qed.

Lemma concat_map_at_most_one {B} (f : string -> list B) (l : list string) p :
  List.NoDup l -> (length (f p) <= 1)%nat -> (forall q, q <> p -> f q = []) ->
  (length (concat (map f l)) <= 1)%nat.
Proof.
  intros Hnd Hp Hother.
  destruct (in_dec string_dec p l) as [Hin|Hnin].
  - rewrite (concat_map_single f l p (f p) Hnd Hin Hother eq_refl). exact Hp.
  - replace (concat (map f l)) with (@nil B); [simpl; lia|].
    clear Hnd. induction l as [|y l IH]; [reflexivity|]. simpl.
    rewrite Hother by (intros ->; apply Hnin; left; reflexivity).
    apply IH. intros Hin; apply Hnin; right; exact Hin.
Qed.

Lemma adjust_index_range sn progress pid t k :
  adjust_index sn progress pid t all_time_points (tp_index t) = Ok k ->
  (0 <= k <= tp_index t)%Z.
Proof.
  unfold all_time_points.
  destruct t; simpl;
    [intros H; injection H as <-; simpl; lia | |];
    repeat (destruct (participant_completed_survey progress pid sn _) as [[]|];
            cbn [res_bind adjust_index tp_index Z.eqb Pos.eqb]; try discriminate);
    intros H; injection H as <-; lia.
Qed.

Lemma collect_rows_ok_select sort_values sn progress rows t pids acc out :
  collect_rows sort_values sn progress rows t pids acc = Ok out ->
  forall pid, In pid pids ->
  exists sel, select_participant_row sort_values sn progress rows pid t = Ok sel.
Proof.
  revert acc. induction pids as [|q pids IH]; intros acc H pid Hin; [destruct Hin|].
  simpl in H.
  destruct (select_participant_row sort_values sn progress rows q t) as [sel|e] eqn:Hsel;
    simpl in H; [|discriminate].
  destruct Hin as [<-|Hin]; [exists sel; exact Hsel|].
  exact (IH _ H pid Hin).
Qed.

(** The rows a successful run of [filter_results_by_time_point] returns
    are rows of the input, and no participant has more than one of them. *)
Theorem filter_results_one_row_per_participant
    (sort_values : list SurveyRow -> list SurveyRow)
    (Hperm : forall l, Permutation (sort_values l) l)
    (sn : string) (progress : ProgressData) (rows : list SurveyRow) (t : TimePoint)
    (out : list SurveyRow)
    (Hout : filter_results_by_time_point sort_values sn progress rows t = Ok out) :
  (forall r, In r out -> In r rows)
  /\ (forall pid, (length (List.filter (fun x => str_eq (participant_id x) pid) out) <= 1)%nat).
Proof.
  split.
  - intros r Hr. unfold filter_results_by_time_point in Hout.
    destruct (collect_rows_from_input _ _ _ _ _ _ _ _ Hperm Hout r Hr) as [[]|H]. exact H.
  - intros pid. rewrite (filter_results_pid _ _ _ _ _ pid _ Hperm Hout).
    apply (concat_map_at_most_one _ _ pid); [apply unique_ids_aux_nodup| |].
    + destruct (select_participant_row _ _ _ _ pid _) as [[x|]|]; simpl; [|lia..].
      destruct (str_eq pid pid); simpl; lia.
    + intros q Hq. destruct (select_participant_row _ _ _ _ q _) as [[x|]|]; try reflexivity.
      destruct (str_eq q pid) eqn:E; [apply str_eq_true in E; contradiction|reflexivity].
Qed.

Lemma filter_results_one_row_per_participant_witness :
  filter_results_by_time_point insertion_sort_rows "comprehension" progress_data survey_rows
    RESULT_RETURN
  = Ok [ {| participant_id := "p1"; authored_at_gmt := "2024-02-01 10:00:00"; answers := [] |};
         {| participant_id := "p2"; authored_at_gmt := "2024-03-01 12:00:00"; answers := [] |} ]
  /\ (forall pid, (length (List.filter (fun x => str_eq (participant_id x) pid)
        [ {| participant_id := "p1"; authored_at_gmt := "2024-02-01 10:00:00"; answers := [] |};
          {| participant_id := "p2"; authored_at_gmt := "2024-03-01 12:00:00"; answers := [] |} ])
        <= 1)%nat).
Proof.
  assert (Hout : filter_results_by_time_point insertion_sort_rows "comprehension" progress_data
                   survey_rows RESULT_RETURN
    = Ok [ {| participant_id := "p1"; authored_at_gmt := "2024-02-01 10:00:00"; answers := [] |};
           {| participant_id := "p2"; authored_at_gmt := "2024-03-01 12:00:00"; answers := [] |} ])
    by (vm_compute; reflexivity).
  split; [exact Hout|].
  exact (proj2 (filter_results_one_row_per_participant insertion_sort_rows insertion_sort_rows_perm
                  "comprehension" progress_data survey_rows RESULT_RETURN _ Hout)).
Defined.

(** The row selected for a participant at time point [t] sits at a
    position between 0 and [tp_index t] of the participant's rows sorted
    by time marker: skipped time points only move the position back, never
    below the first row. *)
Theorem select_row_within_time_point_index
    (sort_values : list SurveyRow -> list SurveyRow)
    (sn : string) (progress : ProgressData) (rows : list SurveyRow)
    (pid : string) (t : TimePoint) (r : SurveyRow)
    (Hsel : select_participant_row sort_values sn progress rows pid t = Ok (Some r)) :
  exists k, (k <= Z.to_nat (tp_index t))%nat
    /\ sort_values (List.filter (fun x => str_eq (participant_id x) pid) rows) !! k = Some r.
Proof.
  revert Hsel. unfold select_participant_row.
  destruct (participant_completed_survey progress pid sn t) as [[]|];
    cbn [res_bind negb]; try discriminate.
  destruct (adjust_index sn progress pid t all_time_points (tp_index t)) as [i|] eqn:Ha;
    cbn [res_bind]; try discriminate.
  apply adjust_index_range in Ha.
  match goal with |- context [Z.gtb ?a ?b] => destruct (Z.gtb a b) end; [discriminate|].
  intros H. injection H as H. exists (Z.to_nat i). split; [lia|exact H].
Qed.

Lemma select_row_within_time_point_index_witness :
  select_participant_row insertion_sort_rows "comprehension" progress_data survey_rows "p1"
    THREE_MONTH_FOLLOW_UP
  = Ok (Some {| participant_id := "p1"; authored_at_gmt := "2024-05-02 10:00:00"; answers := [] |})
  /\ exists k, (k <= 2)%nat
    /\ insertion_sort_rows (List.filter (fun x => str_eq (participant_id x) "p1") survey_rows) !! k
       = Some {| participant_id := "p1"; authored_at_gmt := "2024-05-02 10:00:00"; answers := [] |}.
Proof.
  assert (Hsel : select_participant_row insertion_sort_rows "comprehension" progress_data
                   survey_rows "p1" THREE_MONTH_FOLLOW_UP
    = Ok (Some {| participant_id := "p1"; authored_at_gmt := "2024-05-02 10:00:00";
                  answers := [] |})) by (vm_compute; reflexivity).
  split; [exact Hsel|].
  exact (select_row_within_time_point_index insertion_sort_rows "comprehension" progress_data
           survey_rows "p1" THREE_MONTH_FOLLOW_UP _ Hsel).
Defined.

(** [filter_results_by_time_point] raises unless every participant of the
    survey results has exactly one row in the progress data and the
    progress column of the survey at [t] exists. *)
Theorem filter_results_requires_progress
    (sort_values : list SurveyRow -> list SurveyRow)
    (sn : string) (progress : ProgressData) (rows : list SurveyRow) (t : TimePoint)
    (out : list SurveyRow)
    (Hout : filter_results_by_time_point sort_values sn progress rows t = Ok out) :
  forall pid, In pid (map participant_id rows) ->
    In (progress_column sn t) (prog_columns progress)
    /\ length (List.filter (fun r => str_eq (prog_participant_id r) pid) (prog_rows progress))
       = 1%nat.
Proof.
  intros pid Hpid.
  assert (Hin : In pid (unique_participant_ids rows))
    by (apply unique_ids_aux_spec; simpl; tauto).
  destruct (collect_rows_ok_select _ _ _ _ _ _ _ _ Hout pid Hin) as [sel Hsel].
  revert Hsel. unfold select_participant_row, participant_completed_survey.
  destruct (existsb (str_eq (progress_column sn t)) (prog_columns progress)) eqn:Ec;
    simpl; [|discriminate].
  apply existsb_exists in Ec as [c [Hc Hcc]]. apply str_eq_true in Hcc. subst c.
  destruct (List.filter _ (prog_rows progress)) as [|x [|y l]]; simpl; try discriminate.
  intros _. split; [exact Hc|reflexivity].
Qed.

Lemma filter_results_requires_progress_witness :
  filter_results_by_time_point insertion_sort_rows "comprehension" progress_data survey_rows
    RESULT_RETURN
  = Ok [ {| participant_id := "p1"; authored_at_gmt := "2024-02-01 10:00:00"; answers := [] |};
         {| participant_id := "p2"; authored_at_gmt := "2024-03-01 12:00:00"; answers := [] |} ]
  /\ In (progress_column "comprehension" RESULT_RETURN) (prog_columns progress_data)
  /\ length (List.filter (fun r => str_eq (prog_participant_id r) "p2") (prog_rows progress_data))
     = 1%nat.
Proof.
  assert (Hout : filter_results_by_time_point insertion_sort_rows "comprehension" progress_data
                   survey_rows RESULT_RETURN
    = Ok [ {| participant_id := "p1"; authored_at_gmt := "2024-02-01 10:00:00"; answers := [] |};
           {| participant_id := "p2"; authored_at_gmt := "2024-03-01 12:00:00"; answers := [] |} ])
    by (vm_compute; reflexivity).
  split; [exact Hout|].
  apply (filter_results_requires_progress insertion_sort_rows "comprehension" progress_data
           survey_rows RESULT_RETURN _ Hout "p2").
  simpl; tauto.
Defined.

End ResolverInvariants.

(* ------------------------------------------------------------------ *)
(** ** Further properties of the score aggregation *)

Module ScoreEdgeCases.
Import ScoreAggregator ScoreInputs ScoreEdgeInputs.

(** A yes/no question has no scores: an answer [yes] or [no] raises, with
    a [KeyError] in the comprehension survey and an [UndefinedScoresError]
    in any other survey; any other answer, NaN included, has no score. *)
Theorem get_single_score_yes_no (is_comp : bool) (defs : list DefinitionRow)
    (q : string) (d : DefinitionRow) (ds : list DefinitionRow)
    (Hfirst : List.filter (fun x => str_eq (title x) q) defs = d :: ds)
    (Hyesno : answer_type d = "YESNO_CHOICE") :
  get_single_score is_comp defs q ANaN = Ok None
  /\ forall k, get_single_score is_comp defs q (AKey k)
     = if str_eq k "yes" || str_eq k "no"
       then Raise (if is_comp then KeyError k else UndefinedScoresError "Define scores")
       else Ok None.
Proof.
  unfold get_single_score, load_answer_definitions. rewrite Hfirst, Hyesno.
  cbn [res_bind str_eq]. rewrite String.eqb_refl. cbn [res_bind].
  split; [reflexivity|]. intros k.
  cbn [List.find answer_matches key score].
  destruct (str_eq "yes" k) eqn:Ey.
  - apply str_eq_true in Ey. subst k. destruct is_comp; reflexivity.
  - destruct (str_eq "no" k) eqn:En.
    + apply str_eq_true in En. subst k. destruct is_comp; reflexivity.
    + replace (str_eq k "yes") with false
        by (unfold str_eq in *; rewrite String.eqb_sym; congruence).
      replace (str_eq k "no") with false
        by (unfold str_eq in *; rewrite String.eqb_sym; congruence).
      reflexivity.
Qed.

Lemma get_single_score_yes_no_witness :
  get_single_score true yes_no_definitions "taking" (AKey "yes") = Raise (KeyError "yes")
  /\ get_single_score false yes_no_definitions "taking" (AKey "no")
     = Raise (UndefinedScoresError "Define scores").
Proof.
  split.
  - rewrite (proj2 (get_single_score_yes_no true yes_no_definitions "taking"
                      {| title := "taking"; answer_type := "YESNO_CHOICE"; options := None |} [] eq_refl eq_refl) "yes").
    reflexivity.
  - rewrite (proj2 (get_single_score_yes_no false yes_no_definitions "taking"
                      {| title := "taking"; answer_type := "YESNO_CHOICE"; options := None |} [] eq_refl eq_refl) "no").
    reflexivity.
Defined.

Lemma score_questions_ok is_comp defs row qs sc b res0 :
  score_questions is_comp defs row qs sc b = Ok res0 ->
  forall q a, In q qs -> row_get row (title q) = Some a ->
  exists v, get_single_score is_comp defs (title q) a = Ok v.
Proof.
  revert sc b. induction qs as [|q0 qs IH]; intros sc b H q a Hq Ha; [destruct Hq|].
  simpl in H. destruct Hq as [<-|Hq].
  - rewrite Ha in H. destruct (get_single_score is_comp defs (title q0) a) as [v|e];
      [exists v; reflexivity|discriminate].
  - destruct (row_get row (title q0)) as [a0|].
    + destruct (get_single_score is_comp defs (title q0) a0) as [[v|]|e]; simpl in H;
        [exact (IH _ _ H q a Hq Ha)|exact (IH _ _ H q a Hq Ha)|discriminate].
    + exact (IH _ _ H q a Hq Ha).
Qed.

(** [get_defined_scores] gives one entry per result row, in order, with the
    row's participant id; and it raises unless no row has a column for a
    question whose definition is free text (neither yes/no nor with
    options), whatever the answer in that column, NaN included. *)
Theorem get_defined_scores_shape (is_comp : bool) (defs : list DefinitionRow)
    (data : list ResultRow) (out : list (string * option Z))
    (Hout : get_defined_scores is_comp defs data = Ok out) :
  map fst out = map row_participant_id data
  /\ forall row q d ds, In row data -> In q defs ->
       List.filter (fun x => str_eq (title x) (title q)) defs = d :: ds ->
       answer_type d <> "YESNO_CHOICE" -> options d = None ->
       row_get row (title q) = None.
Proof.
  revert out Hout. induction data as [|row0 data IH]; intros out Hout; simpl in Hout.
  - injection Hout as <-. split; [reflexivity|]. intros row q d ds [].
  - destruct (participant_score is_comp defs row0) as [s|e] eqn:Hs; simpl in Hout;
      [|discriminate].
    destruct (get_defined_scores is_comp defs data) as [rest|e] eqn:Hr; simpl in Hout;
      [|discriminate].
    injection Hout as <-. destruct (IH rest eq_refl) as [Hmap Hfree].
    split; [simpl; rewrite Hmap; reflexivity|].
    intros row q d ds [<-|Hrow] Hq Hfirst Htype Hopt; [|exact (Hfree row q d ds Hrow Hq Hfirst Htype Hopt)].
    unfold participant_score in Hs.
    destruct (score_questions is_comp defs row0 defs 0%Z true) as [r0|e] eqn:Hsq;
      [|discriminate].
    destruct (row_get row0 (title q)) as [a|] eqn:Ha; [|reflexivity].
    destruct (score_questions_ok _ _ _ _ _ _ _ Hsq q a Hq Ha) as [v Hv].
    revert Hv. unfold get_single_score, load_answer_definitions. rewrite Hfirst.
    destruct (str_eq (answer_type d) "YESNO_CHOICE") eqn:Ey;
      [apply str_eq_true in Ey; contradiction|].
    rewrite Hopt. discriminate.
Qed.

Lemma get_defined_scores_shape_witness :
  get_defined_scores false free_text_definitions [zero_row] = Ok [("p1", Some 0%Z)]
  /\ row_get zero_row "comment" = None.
Proof.
  assert (Hout : get_defined_scores false free_text_definitions [zero_row]
                 = Ok [("p1", Some 0%Z)]) by (vm_compute; reflexivity).
  split; [exact Hout|].
  apply (proj2 (get_defined_scores_shape false free_text_definitions [zero_row] _ Hout)
           zero_row {| title := "comment"; answer_type := "TEXT"; options := None |}
           {| title := "comment"; answer_type := "TEXT"; options := None |} []);
    [left; reflexivity | right; left; reflexivity | vm_compute; reflexivity
    | discriminate | reflexivity].
Defined.

End ScoreEdgeCases.

(* ------------------------------------------------------------------ *)
(** ** Further properties of the results ledger *)

Module ResultsLedgerInvariants.
Import ResultsLedger LedgerInputs ResultsLedgerProofs.

Lemma present_row_insert (f : LedgerRow -> bool) k rows i y x :
  rows !! i = Some y -> f y = f x ->
  List.filter (fun p => f (snd p)) (zip (seq k (length (<[i := x]> rows))) (<[i := x]> rows))
  = map (fun p => if Nat.eqb (fst p) (k + i) then (k + i, x)%nat else p) (List.filter (fun p => f (snd p)) (zip (seq k (length rows)) rows)).
Proof.
  rewrite length_insert.
  revert k i. induction rows as [|a rows IH]; intros k i Hi Hf; [discriminate|].
  assert (Hrest : forall k', (k < k')%nat ->
            List.filter (fun p => f (snd p)) (zip (seq k' (length rows)) rows)
            = map (fun p => if Nat.eqb (fst p) (k + i) then (k + i, x)%nat else p)
                (List.filter (fun p => f (snd p)) (zip (seq k' (length rows)) rows))
            \/ (0 < i)%nat).
  { intros k' Hk. destruct i as [|i']; [left|right; lia].
    symmetry. rewrite <- (map_id (List.filter _ _)) at 2. apply map_ext_in.
    intros [j r] Hin. apply filter_In in Hin as [Hin _]. apply zip_seq_in in Hin as [Hj _].
    simpl. destruct (Nat.eqb_spec j (k + 0)); [lia|reflexivity]. }
  destruct i as [|i'].
  - simpl in Hi. injection Hi as ->. cbn [insert list_insert length seq zip List.filter snd].
    rewrite Hf. destruct (Hrest (S k)) as [Hr|Hr]; [lia| |lia].
    destruct (f x); simpl; rewrite <- Hr; rewrite ?Nat.add_0_r, ?Nat.eqb_refl; reflexivity.
  - simpl in Hi. specialize (IH (S k) i' Hi Hf).
    change (<[S i' := x]> (a :: rows)) with (a :: <[i' := x]> rows).
    cbn [length seq zip List.filter snd]. rewrite IH. replace (S k + i')%nat with (k + S i')%nat by lia.
    destruct (f a); simpl; [|reflexivity].
    destruct (Nat.eqb_spec k (k + S i')); [lia|reflexivity].
Qed.

Lemma present_row_app_one (f : LedgerRow -> bool) rows r :
  f r = true ->
  List.filter (fun p => f (snd p)) (zip (seq 0 (length (rows ++ [r]))) (rows ++ [r]))
  = List.filter (fun p => f (snd p)) (zip (seq 0 (length rows)) rows) ++ [(length rows, r)].
Proof.
  intros Hr. rewrite length_app, Nat.add_1_r, seq_S.
  simpl. rewrite zip_with_app by (rewrite length_seq; reflexivity).
  rewrite List.filter_app. simpl. rewrite Hr. reflexivity.
Qed.

Lemma present_row_snd (f : LedgerRow -> bool) (rows : list LedgerRow) :
  map snd (List.filter (fun p => f (snd p)) (zip (seq 0 (length rows)) rows))
  = List.filter f rows.
Proof. apply zip_seq_filter. Qed.

Lemma write_as_present store row_data (matches : LedgerRow -> bool) :
  matches = (fun r => str_eq (comparison r) (comparison row_data)
                      && str_eq (item r) (item row_data)) ->
  write_to_results_table store row_data
  = match store with
    | None => (Some [row_data], [])
    | Some rows =>
        match List.filter (fun p => matches (snd p)) (zip (seq 0 (length rows)) rows) with
        | [] => (Some (rows ++ [row_data]), [])
        | [(index, _)] => (Some (<[index := row_data]> rows), [])
        | _ => (Some rows, [multiple_rows_warning row_data])
        end
    end.
Proof. intros ->. reflexivity. Qed.

(** Writing the same row twice has the effect of writing it once: the
    table and the printed lines are those of the first write, also when
    the key is duplicated and the write is refused with a warning. *)
Theorem write_to_results_table_idempotent (store : Store) (row_data : LedgerRow) :
  write_to_results_table (fst (write_to_results_table store row_data)) row_data
  = write_to_results_table store row_data.
Proof.
  set (matches := fun r => str_eq (comparison r) (comparison row_data)
                           && str_eq (item r) (item row_data)).
  assert (Hself : matches row_data = true)
    by (unfold matches; rewrite !str_eq_refl; reflexivity).
  assert (Hm : matches = (fun r => str_eq (comparison r) (comparison row_data)
                                   && str_eq (item r) (item row_data))) by reflexivity.
  rewrite !(write_as_present _ _ _ Hm).
  destruct store as [rows|]; simpl.
  - destruct (List.filter (fun p => matches (snd p)) (zip (seq 0 (length rows)) rows)) as [|[i y] [|p2 ps]] eqn:Ep; simpl.
    + rewrite (present_row_app_one _ _ _ Hself), Ep. simpl.
      rewrite list_insert_id; [reflexivity|].
      rewrite lookup_app_r by lia. rewrite Nat.sub_diag. reflexivity.
    + assert (Hin : In (i, y) (List.filter (fun p => matches (snd p)) (zip (seq 0 (length rows)) rows))) by (rewrite Ep; left; reflexivity).
      apply filter_In in Hin as [Hin Hy].
      apply zip_seq_in in Hin as [_ Hl]. rewrite Nat.sub_0_r in Hl. simpl in Hy.
      rewrite (present_row_insert _ 0 rows i y row_data Hl) by congruence.
      rewrite Ep. simpl. rewrite Nat.eqb_refl. simpl.
      rewrite list_insert_insert. destruct (decide (i = i)); [reflexivity|congruence].
    + rewrite Ep. reflexivity.
  - simpl. rewrite Hself. reflexivity.
Qed.

(** After a write that is not refused (no results file yet, or at most one
    row with the key), the table holds exactly one row with the key of the
    row written, and that row is the one written. *)
Theorem write_to_results_table_key_unique (store : Store) (row_data : LedgerRow)
    (Hstore : forall rows, store = Some rows ->
       (length (List.filter (fun r => str_eq (comparison r) (comparison row_data)
                                      && str_eq (item r) (item row_data)) rows) <= 1)%nat) :
  exists rows', fst (write_to_results_table store row_data) = Some rows'
    /\ List.filter (fun r => str_eq (comparison r) (comparison row_data)
                             && str_eq (item r) (item row_data)) rows' = [row_data].
Proof.
  set (matches := fun r => str_eq (comparison r) (comparison row_data)
                           && str_eq (item r) (item row_data)).
  assert (Hself : matches row_data = true)
    by (unfold matches; rewrite !str_eq_refl; reflexivity).
  assert (Hm : matches = (fun r => str_eq (comparison r) (comparison row_data)
                                   && str_eq (item r) (item row_data))) by reflexivity.
  rewrite (write_as_present _ _ _ Hm).
  destruct store as [rows|]; simpl; [|exists [row_data]; simpl; rewrite Hself; split; reflexivity].
  specialize (Hstore rows eq_refl). fold matches in Hstore.
  rewrite <- present_row_snd, length_map in Hstore.
  destruct (List.filter (fun p => matches (snd p)) (zip (seq 0 (length rows)) rows)) as [|[i y] [|p2 ps]] eqn:Ep; simpl in Hstore; [| |lia].
  - exists (rows ++ [row_data]). split; [reflexivity|].
    rewrite List.filter_app, <- present_row_snd, Ep. simpl. rewrite Hself. reflexivity.
  - exists (<[i := row_data]> rows). split; [reflexivity|].
    assert (Hin : In (i, y) (List.filter (fun p => matches (snd p)) (zip (seq 0 (length rows)) rows))) by (rewrite Ep; left; reflexivity).
    apply filter_In in Hin as [Hin Hy].
    apply zip_seq_in in Hin as [_ Hl]. rewrite Nat.sub_0_r in Hl. simpl in Hy.
    rewrite <- present_row_snd.
    rewrite (present_row_insert _ 0 rows i y row_data Hl) by congruence.
    rewrite Ep. simpl. rewrite Nat.eqb_refl. reflexivity.
Qed.

Lemma write_to_results_table_key_unique_witness :
  exists rows', fst (write_to_results_table (Some ledger)
                       (ledger_row "time_points" "comprehension" "new")) = Some rows'
    /\ List.filter (fun r => str_eq (comparison r) "time_points"
                             && str_eq (item r) "comprehension") rows'
       = [ledger_row "time_points" "comprehension" "new"].
Proof.
  apply (write_to_results_table_key_unique (Some ledger)
           (ledger_row "time_points" "comprehension" "new")).
  intros rows H. injection H as <-. vm_compute. lia.
Defined.

End ResultsLedgerInvariants.

(* ------------------------------------------------------------------ *)
(** ** Comprehension questions: text extraction and phenotype answers *)

Module ComprehensionQuestionProofs.
Import Comprehension ComprehensionInputs ComprehensionProofs PhenotypeAnswers.

Lemma string_length_app (x y : string) :
  String.length (x ++ y)%string = (String.length x + String.length y)%nat.
Proof.
  induction x as [|c x IH]; [reflexivity|].
  change (S (String.length (x ++ y)%string) = S (String.length x + String.length y))%nat.
  rewrite IH. reflexivity.
Qed.

Lemma substring_full (s : string) : substring 0 (String.length s) s = s.
Proof. induction s as [|c s IH]; [reflexivity|]. simpl. rewrite IH. reflexivity. Qed.

Lemma substring_after_prefix (x y : string) :
  substring (String.length x) (String.length y) (x ++ y)%string = y.
Proof.
  induction x as [|c x IH]; [apply substring_full|].
  change (substring (String.length x) (String.length y) (x ++ y)%string = y). exact IH.
Qed.

Lemma prefix_app (x y : string) : String.prefix x (x ++ y)%string = true.
Proof.
  induction x as [|c x IH]; [destruct y; reflexivity|].
  change (String.prefix (String c x) (String c (x ++ y)) = true).
  simpl. destruct (ascii_dec c c) as [_|n]; [apply IH|contradiction].
Qed.

Lemma replace_fuel_empty fuel old new : replace_fuel fuel old new "" = "".
Proof. destruct fuel; reflexivity. Qed.

(** [str.replace] passes over a part of the text in which the first
    character of [old] does not occur. *)
Lemma replace_fuel_skip (c0 : ascii) (old' new m t : string) (f : nat) :
  ~ In c0 (list_ascii_of_string m) ->
  replace_fuel (String.length m + f) (String c0 old') new (m ++ t)%string
  = (m ++ replace_fuel f (String c0 old') new t)%string.
Proof.
  induction m as [|c m IH]; intros Hm; [reflexivity|].
  change (replace_fuel (S (String.length m + f)) (String c0 old') new (String c (m ++ t))
          = String c (m ++ replace_fuel f (String c0 old') new t)).
  cbn [replace_fuel].
  assert (Hc : c0 <> c) by (intros ->; apply Hm; left; reflexivity).
  replace (String.prefix (String c0 old') (String c (m ++ t)%string)) with false
    by (simpl; destruct (ascii_dec c0 c); [contradiction|reflexivity]).
  rewrite IH; [reflexivity|]. intros H; apply Hm; right; exact H.
Qed.

(** [str.replace] removes an occurrence of [old] at the start. *)
Lemma replace_fuel_prefix (old new rest : string) (f : nat) :
  old <> "" ->
  replace_fuel (S f) old new (old ++ rest)%string
  = (new ++ replace_fuel f old new rest)%string.
Proof.
  intros Hold. destruct old as [|c0 old']; [contradiction|].
  set (old := String c0 old').
  transitivity
    (if String.prefix old (old ++ rest)%string
     then (new ++ replace_fuel f old new
             (substring (String.length old)
                (String.length (old ++ rest)%string - String.length old) (old ++ rest)%string))%string
     else String c0 (replace_fuel f old new (old' ++ rest)%string)); [reflexivity|].
  rewrite prefix_app, string_length_app, Nat.add_comm, Nat.add_sub, substring_after_prefix.
  reflexivity.
Qed.


Lemma replace_fuel_absent (c0 : ascii) (old' new s : string) (fuel : nat) :
  ~ In c0 (list_ascii_of_string s) -> (String.length s <= fuel)%nat ->
  replace_fuel fuel (String c0 old') new s = s.
Proof.
  intros Hs Hf.
  pose proof (replace_fuel_skip c0 old' new s "" (fuel - String.length s) Hs) as H.
  rewrite replace_fuel_empty, !string_app_nil_r in H.
  replace fuel with (String.length s + (fuel - String.length s))%nat by lia. exact H.
Qed.

Lemma replace_fuel_self (old new : string) (f : nat) :
  old <> "" -> replace_fuel (S f) old new old = new.
Proof.
  intros Hold. pose proof (replace_fuel_prefix old new "" f Hold) as H.
  rewrite string_app_nil_r, replace_fuel_empty, string_app_nil_r in H. exact H.
Qed.

Lemma string_app_nil_l (x : string) : ("" ++ x)%string = x.
Proof. reflexivity. Qed.

(** The medication named in a standard-dose question is recovered from the
    question text, for any medication name without the characters [A] and
    [,] (the first characters of the two fixed parts removed). *)
Theorem get_medication_from_question_round_trip (medication : string)
    (HA : ~ In "A"%char (list_ascii_of_string medication))
    (Hcomma : ~ In ","%char (list_ascii_of_string medication)) :
  get_medication_from_question
    ("According to your PGx test result, if you ever needed to take the medication "
     ++ medication ++ ", could you take it at standard dosage?")
  = medication.
Proof.
  unfold get_medication_from_question, str_replace.
  rewrite replace_fuel_prefix by discriminate. rewrite string_app_nil_l.
  rewrite !string_length_app.
  rewrite (Nat.add_comm (String.length "According to your PGx test result, if you ever needed to take the medication ")).
  rewrite <- Nat.add_assoc.
  rewrite (replace_fuel_skip "A"%char _ _ _ _ _ HA).
  rewrite (replace_fuel_absent "A"%char) by first [cbn; intuition discriminate | lia].
  rewrite string_length_app, <- Nat.add_succ_r.
  rewrite (replace_fuel_skip ","%char _ _ _ _ _ Hcomma).
  rewrite replace_fuel_self by discriminate.
  apply string_app_nil_r.
Qed.

Lemma get_medication_from_question_round_trip_witness :
  get_medication_from_question ibuprofen_question = "ibuprofen".
Proof.
  apply (get_medication_from_question_round_trip "ibuprofen"); cbn; intuition discriminate.
Defined.

Lemma split_on_app_sep (sep : ascii) (x y : string) :
  exists a l, split_on sep (x ++ String sep y)%string = a :: l ++ split_on sep y.
Proof.
  induction x as [|c x IH].
  - exists "", []. simpl. destruct (ascii_dec sep sep) as [_|n]; [reflexivity|contradiction].
  - destruct IH as [a [l IH]].
    change (exists a' l', split_on sep (String c (x ++ String sep y))
                         = a' :: l' ++ split_on sep y).
    simpl. rewrite IH. destruct (ascii_dec c sep).
    + exists "", (a :: l). reflexivity.
    + exists (String c a), l. reflexivity.
Qed.

Lemma split_on_nonempty (sep : ascii) (s : string) : split_on sep s <> [].
Proof.
  destruct s as [|c s]; [discriminate|]. simpl.
  destruct (ascii_dec c sep); [discriminate|]. destruct (split_on sep s); discriminate.
Qed.

Lemma split_on_absent (sep : ascii) (s : string) :
  ~ In sep (list_ascii_of_string s) -> split_on sep s = [s].
Proof.
  induction s as [|c s IH]; intros Hs; [reflexivity|].
  simpl. destruct (ascii_dec c sep) as [->|_]; [exfalso; apply Hs; left; reflexivity|].
  rewrite IH; [reflexivity|]. intros H; apply Hs; right; exact H.
Qed.

Lemma list_ascii_of_string_app (x y : string) :
  list_ascii_of_string (x ++ y)%string = list_ascii_of_string x ++ list_ascii_of_string y.
Proof.
  induction x as [|c x IH]; [reflexivity|].
  change (c :: list_ascii_of_string (x ++ y)%string
          = c :: list_ascii_of_string x ++ list_ascii_of_string y). rewrite IH. reflexivity.
Qed.

Lemma last_app_ne {A} (l1 l2 : list A) (d : A) : l2 <> [] -> List.last (l1 ++ l2) d = List.last l2 d.
Proof.
  intros Hl2. induction l1 as [|x l1 IH]; [reflexivity|].
  rewrite <- app_comm_cons. simpl. rewrite IH.
  destruct (l1 ++ l2) eqn:E; [apply app_eq_nil in E as [_ ->]; contradiction|reflexivity].
Qed.

(** The gene of a phenotype question is the last word of the question
    with its colon removed, for any gene name without spaces and colons. *)
Lemma gene_from_question (prefix gene : string)
    (Hspace : ~ In " "%char (list_ascii_of_string gene))
    (Hcolon : ~ In ":"%char (list_ascii_of_string gene)) :
  get_gene_from_question (prefix ++ " " ++ gene ++ ":") = gene.
Proof.
  unfold get_gene_from_question.
  destruct (split_on_app_sep " "%char prefix (gene ++ ":")) as [a [l Hs]].
  change (" " ++ gene ++ ":")%string with (String " "%char (gene ++ ":")).
  rewrite Hs, app_comm_cons, last_app_ne.
  - rewrite split_on_absent; [simpl|].
    + unfold str_replace. rewrite string_length_app.
      replace (S (String.length gene + String.length ":")) with (String.length gene + 2)%nat
        by (simpl; lia).
      rewrite (replace_fuel_skip ":"%char _ _ _ _ _ Hcolon).
      rewrite replace_fuel_self by discriminate. apply string_app_nil_r.
    + rewrite list_ascii_of_string_app. intros H. apply in_app_or in H as [H|[H|[]]];
        [exact (Hspace H)|discriminate H].
  - apply split_on_nonempty.
Qed.

(** [_analyze_phenotype_answer] on a question ending in " <gene>:": the
    gene is read off the question; when the ground truth has a record
    for it, the answer is correct exactly when it equals the first word of
    the recorded phenotype in lower case, a correct answer writes no log
    row, and a wrong one is graded incorrect once one row with notes
    "<gene> <phenotype>" is written: that row records the participant's
    study group when REDCap has one assigned, and otherwise the write
    raises ([IndexError] without a REDCap row, [AttributeError] for an
    unassigned group).  When the ground truth has no record for the gene,
    [KeyError] is raised. *)
Theorem analyze_phenotype_answer_verdict (redcap : list RedcapRow)
    (pid prefix gene answer : string) (participant_genes : Genes)
    (Hspace : ~ In " "%char (list_ascii_of_string gene))
    (Hcolon : ~ In ":"%char (list_ascii_of_string gene)) :
  let column := (prefix ++ " " ++ gene ++ ":")%string in
  get_gene_from_question column = gene
  /\ (forall g, participant_genes !! gene = Some g ->
        (answer = lower (first_word (phenotype g)) ->
           analyze_phenotype_answer redcap pid column answer participant_genes = Ok (true, []))
        /\ (answer <> lower (first_word (phenotype g)) ->
           analyze_phenotype_answer redcap pid column answer participant_genes
           = (let* e := write_preprocessing_log redcap gene answer
                          (gene ++ " " ++ phenotype g) pid in
              Ok (false, [e]))
           /\ (forall sg, get_study_group redcap pid = Ok (Some sg) ->
                analyze_phenotype_answer redcap pid column answer participant_genes
                = Ok (false, [ {| log_study_group := study_group_value sg;
                                  log_question := gene; log_answer := answer;
                                  log_notes := gene ++ " " ++ phenotype g;
                                  log_participant_id := pid |} ]))
           /\ (List.filter (fun r => str_eq (redcap_participant_id r) pid) redcap = [] ->
                analyze_phenotype_answer redcap pid column answer participant_genes
                = Raise IndexError)
           /\ (get_study_group redcap pid = Ok None ->
                analyze_phenotype_answer redcap pid column answer participant_genes
                = Raise (AttributeError "'NoneType' object has no attribute 'value'"))))
  /\ (participant_genes !! gene = None ->
        analyze_phenotype_answer redcap pid column answer participant_genes
        = Raise (KeyError gene)).
Proof.
  intros column.
  assert (Hgene : get_gene_from_question column = gene)
    by (apply gene_from_question; assumption).
  unfold analyze_phenotype_answer. rewrite Hgene.
  split; [reflexivity|]. split.
  - intros g Hg. rewrite (dict_get_some _ _ _ Hg). cbn [res_bind]. split.
    + intros ->. rewrite str_eq_refl. reflexivity.
    + intros Hne. rewrite (str_eq_false _ _ Hne). cbn [res_bind].
      unfold ALSO_PHENOTYPE_ADAPTIONS_COMMUNICATED. rewrite lookup_empty.
      split; [reflexivity|]. unfold write_preprocessing_log. split; [|split].
      * intros sg Hsg. rewrite Hsg. reflexivity.
      * intros Hnone. unfold get_study_group, get_study_group_string.
        rewrite Hnone. reflexivity.
      * intros Hsg. rewrite Hsg. reflexivity.
  - intros Hg. rewrite (dict_get_none _ _ Hg). reflexivity.
Qed.

Lemma analyze_phenotype_answer_verdict_witness :
  analyze_phenotype_answer redcap_p1_pharme "p1"
    "Which phenotype does your PGx test result show for CYP2C19:" "poor" panel_without_dpyd
  = Ok (false, [ {| log_study_group := "PharMe"; log_question := "CYP2C19";
                    log_answer := "poor"; log_notes := "CYP2C19 Normal Metabolizer";
                    log_participant_id := "p1" |} ]).
Proof.
  destruct (analyze_phenotype_answer_verdict redcap_p1_pharme "p1"
              "Which phenotype does your PGx test result show for" "CYP2C19" "poor"
              panel_without_dpyd) as [_ [Hknown _]];
    [cbn; intuition discriminate | cbn; intuition discriminate |].
  destruct (proj2 (Hknown {| genotype := "*1/*1"; phenotype := "Normal Metabolizer" |}
                     ltac:(vm_compute; reflexivity)) ltac:(vm_compute; discriminate))
    as [_ [Hsg _]].
  exact (Hsg PHARME ltac:(vm_compute; reflexivity)).
Defined.


End ComprehensionQuestionProofs.

(* ------------------------------------------------------------------ *)
(** ** Further properties of the statistical comparisons *)

Module EffectInterpretationProofs.
Import Floats Statistics.

Lemma abs_opp (x : float) : PrimFloat.abs (- x)%float = PrimFloat.abs x.
Proof.
  apply Prim2SF_inj. rewrite !abs_spec, opp_spec.
  destruct (Prim2SF x); reflexivity.
Qed.

(** [interpret_effect] depends on the size of the effect only, not on
    its sign: an effect and its negation get the same interpretation (and
    the same exception for an unknown method). *)
Theorem interpret_effect_sign_symmetric (effect_method : string) (effect : float) :
  interpret_effect effect_method (- effect)%float = interpret_effect effect_method effect.
Proof. unfold interpret_effect. rewrite abs_opp. reflexivity. Qed.

End EffectInterpretationProofs.

Module EffectSizeProofs.
Import NonInferiority EffectSizes.
Local Open Scope R_scope.

(** Swapping the two groups of [_get_cohens_d] negates Cohen's d: the
    pooled standard deviation does not depend on the order. *)
Theorem get_cohens_d_antisymmetric (group1 group2 : list R) :
  get_cohens_d group2 group1 = - get_cohens_d group1 group2.
Proof.
  unfold get_cohens_d.
  replace ((INR (length group2) - 1) * np_std_ddof1 group2 ^ 2
           + (INR (length group1) - 1) * np_std_ddof1 group1 ^ 2)
    with ((INR (length group1) - 1) * np_std_ddof1 group1 ^ 2
          + (INR (length group2) - 1) * np_std_ddof1 group2 ^ 2) by ring.
  replace (INR (length group2) + INR (length group1) - 2)
    with (INR (length group1) + INR (length group2) - 2) by ring.
  unfold Rdiv. ring.
Qed.

End EffectSizeProofs.

(* ------------------------------------------------------------------ *)
(** ** The comparison table of the categorical study-group comparison *)

Module ComparisonTableProofs.
Import Floats TimePointResolver CategoricalStatistics CategoricalInputs.

Lemma cell_same_eq (a b : Cell) : cell_same a b = true -> a = b.
Proof.
  destruct a, b; simpl; try discriminate; [reflexivity|].
  intros H. apply str_eq_true in H. subst. reflexivity.
Qed.

Lemma unique_cells_aux_sub seen l c : In c (unique_cells_aux seen l) -> In c l.
Proof.
  revert seen. induction l as [|y l IH]; intros seen; simpl; [tauto|].
  destruct (existsb (cell_same y) seen).
  - intros H. right. exact (IH _ H).
  - intros [<-|H]; [left; reflexivity|right; exact (IH _ H)].
Qed.

Lemma unique_cells_aux_cover seen l c :
  In c l -> In c (unique_cells_aux seen l) \/ exists s, In s seen /\ cell_same c s = true.
Proof.
  revert seen. induction l as [|y l IH]; intros seen Hc; [destruct Hc|]. simpl.
  destruct (existsb (cell_same y) seen) eqn:E.
  - destruct Hc as [<-|Hc]; [|exact (IH _ Hc)].
    right. apply existsb_exists in E. exact E.
  - destruct Hc as [<-|Hc]; [left; left; reflexivity|].
    destruct (IH (y :: seen) Hc) as [H|[s [[<-|Hs] Hcs]]].
    + left. right. exact H.
    + left. left. symmetry. apply cell_same_eq. exact Hcs.
    + right. exists s. split; assumption.
Qed.

Lemma unique_cells_in l c : In c (unique_cells l) <-> In c l.
Proof.
  split; [apply unique_cells_aux_sub|].
  intros Hc. destruct (unique_cells_aux_cover [] l c Hc) as [H|[s [[] _]]]. exact H.
Qed.

Lemma levels_in (groups : list (list Cell)) c :
  In c (concat (map unique_cells groups)) <-> In c (concat groups).
Proof.
  rewrite !in_concat. split.
  - intros [u [Hu Hc]]. apply in_map_iff in Hu as [g [<- Hg]].
    exists g. split; [exact Hg|]. apply unique_cells_in. exact Hc.
  - intros [g [Hg Hc]]. exists (unique_cells g). split; [apply in_map; exact Hg|].
    apply unique_cells_in. exact Hc.
Qed.

Lemma value_count_pos data x : In (Val x) data -> value_count data (Val x) <> 0%nat.
Proof.
  intros H. simpl. destruct (List.filter _ data) eqn:E; [|discriminate].
  assert (In (Val x) (List.filter (fun c => match c with Val y => str_eq y x | NaN => false end) data))
    as Hin by (apply filter_In; split; [exact H|apply str_eq_refl]).
  rewrite E in Hin. destruct Hin.
Qed.

Lemma forallb_zero_nth (r : list nat) j : forallb (Nat.eqb 0) r = true -> nth j r 0%nat = 0%nat.
Proof.
  revert j. induction r as [|n r IH]; intros j H; [destruct j; reflexivity|].
  cbn [forallb] in H. apply andb_true_iff in H as [Hn Hr].
  destruct j; [destruct n; [reflexivity|discriminate]|exact (IH j Hr)].
Qed.

Lemma nth_map_lookup {A} (h : A -> nat) (l : list A) j a :
  l !! j = Some a -> nth j (map h l) 0%nat = h a.
Proof.
  revert j. induction l as [|b l IH]; intros j H; [discriminate|].
  destruct j; simpl in H; [injection H as ->; reflexivity|exact (IH j H)].
Qed.

Lemma table_length (groups : list (list Cell)) (L : list Cell) :
  (forall x, In (Val x) L -> exists g, In g groups /\ In (Val x) g) ->
  length (List.filter (fun level_counts => negb (forallb (Nat.eqb 0) level_counts))
            (map (fun level => map (fun data => value_count data level) groups) L))
  = length (omap (fun c => match c with Val x => Some x | NaN => None end) L).
Proof.
  induction L as [|c L IH]; intros HL; [reflexivity|].
  assert (IH' := IH (fun x Hx => HL x (or_intror Hx))). clear IH.
  destruct c as [|x]; cbn [map List.filter omap list_omap length].
  - replace (forallb (Nat.eqb 0) (map (fun data => value_count data NaN) groups)) with true;
      [exact IH'|].
    symmetry. apply forallb_forall. intros n Hn. apply in_map_iff in Hn as [g [<- _]].
    reflexivity.
  - destruct (HL x (or_introl eq_refl)) as [g [Hg Hx]].
    replace (forallb (Nat.eqb 0) (map (fun data => value_count data (Val x)) groups)) with false;
      [cbn [negb length]; rewrite IH'; reflexivity|].
    symmetry. apply not_true_iff_false. intros H. rewrite forallb_forall in H.
    specialize (H (value_count g (Val x)) (in_map _ _ _ Hg)).
    apply Nat.eqb_eq in H. apply (value_count_pos g x Hx). symmetry. exact H.
Qed.

Lemma list_sum_cons (n : nat) (l : list nat) : list_sum (n :: l) = (n + list_sum l)%nat.
Proof. reflexivity. Qed.

Lemma table_column_sum (groups : list (list Cell)) (L : list Cell) j data :
  groups !! j = Some data ->
  list_sum (map (fun row => nth j row 0%nat)
    (List.filter (fun level_counts => negb (forallb (Nat.eqb 0) level_counts))
      (map (fun level => map (fun data => value_count data level) groups) L)))
  = list_sum (map (fun x => value_count data (Val x))
      (omap (fun c => match c with Val x => Some x | NaN => None end) L)).
Proof.
  intros Hj. induction L as [|c L IH]; [reflexivity|]. cbn [map List.filter].
  assert (Hc : nth j (map (fun data => value_count data c) groups) 0%nat = value_count data c)
    by exact (nth_map_lookup (fun data => value_count data c) groups j data Hj).
  destruct (forallb (Nat.eqb 0) (map (fun data => value_count data c) groups)) eqn:Ez;
    cbn [negb].
  - rewrite IH. rewrite (forallb_zero_nth _ j Ez) in Hc.
    destruct c; cbn [omap list_omap]; [reflexivity|].
    cbn [map]. rewrite list_sum_cons, <- Hc. reflexivity.
  - cbn [map]. rewrite list_sum_cons, IH, Hc.
    destruct c; cbn [omap list_omap map]; [reflexivity|].
    rewrite list_sum_cons. reflexivity.
Qed.

Lemma sum_indicator (V : list string) y :
  NoDup V -> y ∈ V -> list_sum (map (fun x => if str_eq y x then 1%nat else 0%nat) V) = 1%nat.
Proof.
  induction V as [|v V IH]; intros Hnd Hy; [apply elem_of_nil in Hy; contradiction|].
  apply NoDup_cons in Hnd as [Hv Hnd]. simpl.
  destruct (str_eq y v) eqn:E.
  - apply str_eq_true in E. subst v.
    replace (list_sum (map (fun x => if str_eq y x then 1%nat else 0%nat) V)) with 0%nat;
      [reflexivity|].
    clear IH Hnd Hy. induction V as [|w V IHV]; [reflexivity|].
    simpl. rewrite elem_of_cons in Hv.
    destruct (str_eq y w) eqn:Ew; [apply str_eq_true in Ew; subst; exfalso; apply Hv; left; reflexivity|].
    apply IHV. intros H; apply Hv; right; exact H.
  - apply elem_of_cons in Hy as [->|Hy]; [rewrite str_eq_refl in E; discriminate|].
    simpl. apply IH; assumption.
Qed.

Lemma list_sum_map_add {A} (f g : A -> nat) (l : list A) :
  list_sum (map (fun x => (f x + g x)%nat) l) = (list_sum (map f l) + list_sum (map g l))%nat.
Proof.
  induction l as [|x l IH]; [reflexivity|]. cbn [map]. rewrite !list_sum_cons, IH. lia.
Qed.

Lemma sum_value_counts (V : list string) (data : list Cell) :
  NoDup V -> (forall y, In (Val y) data -> y ∈ V) ->
  list_sum (map (fun x => value_count data (Val x)) V)
  = length (omap (fun c => match c with Val x => Some x | NaN => None end) data).
Proof.
  intros Hnd. induction data as [|c data IH]; intros Hcov.
  - simpl. clear. induction V as [|v V IHV]; [reflexivity|]. simpl. exact IHV.
  - destruct c as [|y]; cbn [omap list_omap length].
    + rewrite <- IH by (intros z Hz; apply Hcov; right; exact Hz). reflexivity.
    + rewrite <- IH by (intros z Hz; apply Hcov; right; exact Hz).
      transitivity (list_sum (map (fun x => ((if str_eq y x then 1 else 0)
                                            + value_count data (Val x))%nat) V)).
      { f_equal. apply map_ext. intros x. unfold value_count. cbn [List.filter].
        destruct (str_eq y x); reflexivity. }
      rewrite (list_sum_map_add (fun x => if str_eq y x then 1%nat else 0%nat)
                 (fun x => value_count data (Val x))).
      rewrite (sum_indicator V y Hnd (Hcov y (or_introl eq_refl))). reflexivity.
Qed.

Lemma omap_val_in (L : list Cell) x :
  x ∈ omap (fun c => match c with Val x => Some x | NaN => None end) L <-> In (Val x) L.
Proof.
  rewrite list_elem_of_omap. split.
  - intros [[|y] [Hy Hs]]; [discriminate|]. injection Hs as ->.
    apply list_elem_of_In. exact Hy.
  - intros H. exists (Val x). split; [apply list_elem_of_In; exact H|reflexivity].
Qed.

Lemma comparison_table_facts
    (set_iteration : list Cell -> list Cell) (comparison_data : list (list Cell))
    (Hnodup : NoDup (omap (fun c => match c with Val x => Some x | NaN => None end)
                (set_iteration (concat (map unique_cells comparison_data)))))
    (Hsame : forall x, In (Val x) (set_iteration (concat (map unique_cells comparison_data)))
                       <-> In (Val x) (concat (map unique_cells comparison_data))) :
  let table := create_comparison_table set_iteration comparison_data in
  (forall row, In row table ->
     length row = length comparison_data /\ exists n, In n row /\ n <> 0%nat)
  /\ length table
     = length (remove_dups (omap (fun c => match c with Val x => Some x | NaN => None end)
                              (concat comparison_data)))
  /\ (forall j data, comparison_data !! j = Some data ->
        list_sum (map (fun row => nth j row 0%nat) table)
        = length (omap (fun c => match c with Val x => Some x | NaN => None end) data)).
Proof.
  cbv zeta. unfold create_comparison_table.
  set (L := set_iteration (concat (map unique_cells comparison_data))) in *.
  assert (HL : forall x, In (Val x) L -> exists g, In g comparison_data /\ In (Val x) g).
  { intros x Hx. apply Hsame in Hx. apply (proj1 (levels_in _ _)) in Hx.
    apply in_concat in Hx. exact Hx. }
  split; [|split].
  - intros row Hrow. apply filter_In in Hrow as [Hrow Hnz].
    apply in_map_iff in Hrow as [c [<- _]]. rewrite length_map. split; [reflexivity|].
    apply negb_true_iff, not_true_iff_false in Hnz.
    destruct (existsb (fun n => negb (Nat.eqb 0 n)) (map (fun data => value_count data c) comparison_data)) eqn:E.
    + apply existsb_exists in E as [n [Hn Hz]]. exists n. split; [exact Hn|].
      apply negb_true_iff, Nat.eqb_neq in Hz. lia.
    + exfalso. apply Hnz. apply forallb_forall. intros n Hn.
      destruct (Nat.eqb 0 n) eqn:Ez; [reflexivity|].
      assert (existsb (fun n => negb (Nat.eqb 0 n)) (map (fun data => value_count data c) comparison_data) = true)
        as E' by (apply existsb_exists; exists n; rewrite Ez; split; [exact Hn|reflexivity]).
      congruence.
  - rewrite (table_length _ _ HL). apply Permutation_length, NoDup_Permutation;
      [exact Hnodup|apply NoDup_remove_dups|].
    intros x. rewrite elem_of_remove_dups, !omap_val_in, Hsame, levels_in. reflexivity.
  - intros j data Hj. rewrite (table_column_sum _ _ j data Hj).
    apply sum_value_counts; [exact Hnodup|].
    intros y Hy. apply omap_val_in. apply Hsame. apply (proj2 (levels_in _ _)).
    apply in_concat.
    exists data. split; [|exact Hy]. apply list_elem_of_In. eapply list_elem_of_lookup_2. exact Hj.
Qed.

(** [_create_comparison_table], for any iteration order of the Python set
    of levels (a list holding each answer value once, with the values of
    the levels): every row has one count per study group and is not all
    zero; there is one row per distinct answer value (NaN gets no row);
    and the counts of each study group add up to its number of non-NaN
    answers. *)
Theorem create_comparison_table_shape
    (set_iteration : list Cell -> list Cell) (comparison_data : list (list Cell))
    (Hnodup : NoDup (omap (fun c => match c with Val x => Some x | NaN => None end)
                (set_iteration (concat (map unique_cells comparison_data)))))
    (Hsame : forall x, In (Val x) (set_iteration (concat (map unique_cells comparison_data)))
                       <-> In (Val x) (concat (map unique_cells comparison_data))) :
  let table := create_comparison_table set_iteration comparison_data in
  (forall row, In row table ->
     length row = length comparison_data /\ exists n, In n row /\ n <> 0%nat)
  /\ length table
     = length (remove_dups (omap (fun c => match c with Val x => Some x | NaN => None end)
                              (concat comparison_data)))
  /\ (forall j data, comparison_data !! j = Some data ->
        list_sum (map (fun row => nth j row 0%nat) table)
        = length (omap (fun c => match c with Val x => Some x | NaN => None end) data)).
Proof. exact (comparison_table_facts set_iteration comparison_data Hnodup Hsame). Qed.

Lemma create_comparison_table_shape_witness :
  create_comparison_table unique_cells [pharme_answers; counseling_answers] = [[2; 2]; [1; 0]]%nat
  /\ list_sum (map (fun row => nth 0 row 0%nat)
       (create_comparison_table unique_cells [pharme_answers; counseling_answers]))
     = length (omap (fun c => match c with Val x => Some x | NaN => None end) pharme_answers).
Proof.
  split; [vm_compute; reflexivity|].
  destruct (create_comparison_table_shape unique_cells [pharme_answers; counseling_answers])
    as [_ [_ Hsum]];
    [vm_compute; apply NoDup_ListNoDup; repeat constructor; simpl; intuition discriminate
    | intros x; apply unique_cells_in |].
  exact (Hsum 0%nat pharme_answers eq_refl).
Defined.

Lemma nodup_all_same (l : list string) v :
  NoDup l -> v ∈ l -> (forall x, x ∈ l -> x = v) -> length l = 1%nat.
Proof.
  intros Hnd Hv Hall.
  assert (Hp : l ≡ₚ [v]).
  { apply NoDup_Permutation; [exact Hnd|apply NoDup_singleton|].
    intros x. rewrite list_elem_of_singleton. split; [apply Hall|intros ->; exact Hv]. }
  apply Permutation_length in Hp. exact Hp.
Qed.

(** When every answer of the study groups is NaN or one and the same value
    [v], and [v] occurs, the comparison table has a single row, and the
    categorical study-group comparison reports Cramér's V as NaN whenever
    the statistical library calls return. *)
Theorem study_groups_unanimous_cramers_v_nan
    (set_iteration : list Cell -> list Cell)
    (fisher_pvalue chi_squared : list (list nat) -> res float)
    (comparison_data : list (list Cell)) (v : string) (result : FisherResult)
    (Hnodup : NoDup (omap (fun c => match c with Val x => Some x | NaN => None end)
                (set_iteration (concat (map unique_cells comparison_data)))))
    (Hsame : forall x, In (Val x) (set_iteration (concat (map unique_cells comparison_data)))
                       <-> In (Val x) (concat (map unique_cells comparison_data)))
    (Hall : forall data c, In data comparison_data -> In c data -> c = NaN \/ c = Val v)
    (Hv : exists data, In data comparison_data /\ In (Val v) data)
    (Hresult : are_study_groups_different_categorical set_iteration fisher_pvalue chi_squared
                 comparison_data = Ok result) :
  length (create_comparison_table set_iteration comparison_data) = 1%nat
  /\ fisher_effect_size result = nan.
Proof.
  destruct (comparison_table_facts set_iteration comparison_data Hnodup Hsame)
    as [Hrows [Hlen _]].
  assert (Hone : length (create_comparison_table set_iteration comparison_data) = 1%nat).
  { rewrite Hlen. destruct Hv as [data [Hdata Hvd]].
    apply (nodup_all_same _ v); [apply NoDup_remove_dups| |].
    - apply elem_of_remove_dups, omap_val_in, in_concat. exists data. split; assumption.
    - intros x Hx. apply elem_of_remove_dups, omap_val_in, in_concat in Hx as [d [Hd Hx]].
      destruct (Hall d (Val x) Hd Hx) as [H|H]; [discriminate|injection H as ->; reflexivity]. }
  split; [exact Hone|].
  revert Hresult. unfold are_study_groups_different_categorical, get_cramers_v.
  destruct (create_comparison_table set_iteration comparison_data) as [|row [|row' rows]] eqn:Et;
    try discriminate Hone.
  assert (Hrow : length row = length comparison_data)
    by (apply (Hrows row); left; reflexivity).
  assert (Hne : comparison_data <> []) by (destruct Hv as [d [Hd _]]; intros ->; destruct Hd).
  destruct (fisher_pvalue [row]) as [p|e]; cbn [res_bind]; [|discriminate].
  destruct (chi_squared [row]) as [x2|e]; cbn [res_bind]; [|discriminate].
  replace (Z.eqb (Z.of_nat (Nat.min (length [row]) (length row)) - 1) 0) with true.
  - intros H. injection H as <-. reflexivity.
  - symmetry. apply Z.eqb_eq. destruct comparison_data; [contradiction|].
    simpl in Hrow. simpl length. rewrite Hrow. lia.
Qed.

Lemma study_groups_unanimous_cramers_v_nan_witness :
  are_study_groups_different_categorical unique_cells (fun _ => Ok 1%float) (fun _ => Ok 0%float)
    [unanimous_pharme_answers; unanimous_counseling_answers]
  = Ok {| fisher_p_value := 1%float; fisher_effect_size := nan |}
  /\ length (create_comparison_table unique_cells
               [unanimous_pharme_answers; unanimous_counseling_answers]) = 1%nat.
Proof.
  assert (Hres : are_study_groups_different_categorical unique_cells (fun _ => Ok 1%float)
                   (fun _ => Ok 0%float) [unanimous_pharme_answers; unanimous_counseling_answers]
                 = Ok {| fisher_p_value := 1%float; fisher_effect_size := nan |})
    by (vm_compute; reflexivity).
  split; [exact Hres|].
  assert (H1 : NoDup (omap (fun c => match c with Val x => Some x | NaN => None end)
                  (unique_cells (concat (map unique_cells
                     [unanimous_pharme_answers; unanimous_counseling_answers])))))
    by (vm_compute; apply NoDup_ListNoDup; repeat constructor; simpl; tauto).
  assert (H3 : forall data c, In data [unanimous_pharme_answers; unanimous_counseling_answers] ->
                 In c data -> c = NaN \/ c = Val "yes").
  { intros data c Hd Hc. simpl in Hd.
    destruct Hd as [<-|[<-|[]]]; simpl in Hc; intuition. }
  assert (H4 : exists data, In data [unanimous_pharme_answers; unanimous_counseling_answers]
                 /\ In (Val "yes") data)
    by (exists unanimous_pharme_answers; split; [left; reflexivity|simpl; tauto]).
  exact (proj1 (study_groups_unanimous_cramers_v_nan unique_cells (fun _ => Ok 1%float)
           (fun _ => Ok 0%float) _ "yes" _ H1 (fun x => unique_cells_in _ _) H3 H4 Hres)).
Defined.

End ComparisonTableProofs.

(** ** Median answer *)
Module MedianProofs.
Import TimePointResolver CategoricalStatistics.

Lemma nth_in_sorted (l : list Cell) i :
  (i < length l)%nat -> In (nth i l NaN) l.
Proof. intros H. apply nth_In. exact H. Qed.

(** [get_median_answer] returns only answers taken from its input, returns
    nothing exactly when the input is empty, never more than two answers,
    exactly one answer for an odd number of answers, and the whole sorted
    input (duplicates kept) when there are at most two answers. *)
Theorem get_median_answer_shape (sort_by_label : list Cell -> list Cell)
    (Hperm : forall l, Permutation (sort_by_label l) l) (data : list Cell) :
  let m := get_median_answer sort_by_label data in
  (forall x, In x m -> In x data) /\
  (m = [] <-> data = []) /\
  (length m <= 2)%nat /\
  (Nat.odd (length data) = true -> length m = 1%nat) /\
  ((length data <= 2)%nat -> m = sort_by_label data).
Proof.
  cbv zeta. unfold get_median_answer.
  pose proof (Hperm data) as P.
  pose proof (Permutation_length P) as Hlen.
  rewrite Hlen.
  destruct (Nat.leb (length data) 2) eqn:Hle.
  - apply Nat.leb_le in Hle.
    split; [intros x Hx; exact (Permutation_in _ P Hx)|].
    split; [split; intros H; apply length_zero_iff_nil;
            [rewrite <- Hlen, H | rewrite Hlen, H]; reflexivity|].
    split; [lia|]. split; [|reflexivity].
    intros Hodd. destruct data as [|a [|b [|c data']]]; cbn in *; try discriminate; lia.
  - apply Nat.leb_gt in Hle.
    assert (Hne : data <> []) by (intros ->; cbn in Hle; lia).
    destruct (Nat.odd (length data)) eqn:Hodd.
    + split.
      { intros x [Hx|[]]. subst x. apply (Permutation_in _ P), nth_in_sorted.
        rewrite Hlen. apply Nat.Div0.div_lt_upper_bound. lia. }
      split; [split; [discriminate|tauto]|]. cbn. split; [lia|]. split; [reflexivity|lia].
    + assert (Hi : (length data / 2 < length data)%nat)
        by (apply Nat.div_lt; lia).
      assert (Hin : forall i, (i <= length data / 2)%nat ->
                In (nth i (sort_by_label data) NaN) data).
      { intros i Hi'. apply (Permutation_in _ P), nth_in_sorted. lia. }
      destruct (py_eq _ _).
      * split; [intros x [Hx|[]]; subst x; apply Hin; lia|].
        split; [split; [discriminate|tauto]|]. cbn. split; [lia|]. split; [discriminate|lia].
      * split; [intros x [Hx|[Hx|[]]]; subst x; apply Hin; lia|].
        split; [split; [discriminate|tauto]|]. cbn. split; [lia|]. split; [discriminate|lia].
Qed.

(** With pandas' stable sort by label left as the identity, five answers give
    their middle one. *)
Lemma get_median_answer_shape_witness :
  (forall l : list Cell, Permutation ((fun l => l) l) l) /\
  get_median_answer (fun l => l) [Val "a"; Val "b"; Val "c"; Val "d"; Val "e"]
    = [Val "c"] /\
  (forall x, In x (get_median_answer (fun l => l)
                     [Val "a"; Val "b"; Val "c"; Val "d"; Val "e"]) ->
             In x [Val "a"; Val "b"; Val "c"; Val "d"; Val "e"]).
Proof.
  split; [intros l; reflexivity|]. split; [reflexivity|].
  exact (proj1 (get_median_answer_shape (fun l => l) (fun l => Permutation_refl l)
                  [Val "a"; Val "b"; Val "c"; Val "d"; Val "e"])).
Defined.

End MedianProofs.

(** ** Paired data *)
Module PairedDataProofs.
Import TimePointResolver CategoricalStatistics CategoricalInputs TimePointResolverProofs.

Lemma existsb_str_eq_In x l : existsb (str_eq x) l = true <-> In x l.
Proof.
  rewrite existsb_exists. split.
  - intros [y [Hy E]]. apply str_eq_true in E. subst y. exact Hy.
  - intros H. exists x. split; [exact H|apply str_eq_refl].
Qed.

Lemma present_In r l :
  In r (List.filter (fun r => negb (value_is_nan (row_answer r))) l) <->
  In r l /\ row_answer r <> NaN.
Proof.
  rewrite filter_In. destruct (row_answer r); cbn; intuition discriminate.
Qed.

Lemma map_filter_nodup (f : AnswerRow -> string) (p : AnswerRow -> bool) l :
  List.NoDup (map f l) -> List.NoDup (map f (List.filter p l)).
Proof.
  induction l as [|a l IH]; cbn; intros Hnd; [constructor|].
  inversion Hnd as [|? ? Hnin Hnd']; subst.
  destruct (p a); cbn; [|auto].
  constructor; [|auto].
  intros Hin. apply Hnin. apply in_map_iff in Hin as [b [Hb Hin]].
  apply filter_In in Hin as [Hin _]. rewrite <- Hb. apply in_map, Hin.
Qed.

Lemma sorted_pids_unique (l1 l2 : list string) :
  Sorted String.le l1 -> Sorted String.le l2 -> Permutation l1 l2 -> l1 = l2.
Proof. intros H1 H2 Hp. exact (Sorted_unique String.le l1 l2 H1 H2 Hp). Qed.

(** With [sort_index] a sort by participant id and at most one present row per
    participant in each frame, [_get_paired_data] returns two frames with the
    same participant ids in the same order; the first frame holds exactly the
    rows of [first_data] with an answer whose participant also has an answer in
    [second_data], and the second frame the other way around. *)
Theorem get_paired_data_aligned (sort_index : list AnswerRow -> list AnswerRow)
    (Hperm : forall l, Permutation (sort_index l) l)
    (Hsorted : forall l, Sorted String.le (map row_pid (sort_index l)))
    (first_data second_data : list AnswerRow)
    (Hnd1 : NoDup (map row_pid (List.filter (fun r => negb (value_is_nan (row_answer r))) first_data)))
    (Hnd2 : NoDup (map row_pid (List.filter (fun r => negb (value_is_nan (row_answer r))) second_data))) :
  let p := get_paired_data sort_index first_data second_data in
  map row_pid (fst p) = map row_pid (snd p) /\
  (forall r, In r (fst p) <->
     In r first_data /\ row_answer r <> NaN /\
     exists r', In r' second_data /\ row_pid r' = row_pid r /\ row_answer r' <> NaN) /\
  (forall r, In r (snd p) <->
     In r second_data /\ row_answer r <> NaN /\
     exists r', In r' first_data /\ row_pid r' = row_pid r /\ row_answer r' <> NaN).
Proof.
  cbv zeta. unfold get_paired_data. cbn [fst snd].
  set (pf := List.filter (fun r => negb (value_is_nan (row_answer r))) first_data) in *.
  set (ps := List.filter (fun r => negb (value_is_nan (row_answer r))) second_data) in *.
  set (paired := List.filter (fun pid => existsb (str_eq pid)
                   (unique_ids_aux [] (map row_pid ps))) (map row_pid pf)).
  assert (Hpaired : forall x, In x paired <-> In x (map row_pid pf) /\ In x (map row_pid ps)).
  { intros x. unfold paired. rewrite filter_In, existsb_str_eq_In, unique_ids_aux_spec.
    cbn. tauto. }
  assert (Hfilt : forall l r,
    In r (List.filter (fun r => existsb (str_eq (row_pid r)) paired) l) <->
    In r l /\ In (row_pid r) paired).
  { intros l r. rewrite filter_In, existsb_str_eq_In. tauto. }
  assert (Hex : forall l x, In x (map row_pid l) <-> exists r', In r' l /\ row_pid r' = x).
  { intros l x. rewrite in_map_iff. firstorder. }
  split; [|split].
  - apply sorted_pids_unique; [apply Hsorted|apply Hsorted|].
    rewrite (Hperm _), (Hperm (List.filter _ ps)).
    apply NoDup_Permutation.
    + apply NoDup_ListNoDup, map_filter_nodup, NoDup_ListNoDup, Hnd1.
    + apply NoDup_ListNoDup, map_filter_nodup, NoDup_ListNoDup, Hnd2.
    + intros x. rewrite !list_elem_of_In, !Hex.
      split; intros [r [Hr Hx]]; apply Hfilt in Hr as [_ Hr]; rewrite Hx in Hr;
        pose proof Hr as Hr'; apply Hpaired in Hr' as [H1 H2];
        [apply Hex in H2 as [r' [Hr' Hx']]|apply Hex in H1 as [r' [Hr' Hx']]];
        exists r'; rewrite Hfilt, Hx'; tauto.
  - intros r. split.
    + intros Hr. apply (Permutation_in _ (Hperm _)), Hfilt in Hr as [Hr Hp].
      apply Hpaired in Hp as [_ Hp]. apply Hex in Hp as [r' [Hr' Hx]].
      apply present_In in Hr, Hr'. split; [tauto|]. split; [tauto|].
      exists r'. tauto.
    + intros [Hr [Hn [r' [Hr' [Hx Hn']]]]].
      apply (Permutation_in _ (Permutation_sym (Hperm _))), Hfilt.
      assert (Hpf : In r pf) by (apply present_In; tauto).
      split; [exact Hpf|]. apply Hpaired. split; [apply in_map, Hpf|].
      rewrite <- Hx. apply in_map, present_In. tauto.
  - intros r. split.
    + intros Hr. apply (Permutation_in _ (Hperm _)), Hfilt in Hr as [Hr Hp].
      apply Hpaired in Hp as [Hp _]. apply Hex in Hp as [r' [Hr' Hx]].
      apply present_In in Hr, Hr'. split; [tauto|]. split; [tauto|].
      exists r'. tauto.
    + intros [Hr [Hn [r' [Hr' [Hx Hn']]]]].
      apply (Permutation_in _ (Permutation_sym (Hperm _))), Hfilt.
      assert (Hps : In r ps) by (apply present_In; tauto).
      split; [exact Hps|]. apply Hpaired. split; [|apply in_map, Hps].
      rewrite <- Hx. apply in_map, present_In. tauto.
Qed.

Lemma sort_by_pid_perm l : Permutation (sort_by_pid l) l.
Proof. apply merge_sort_Permutation. Qed.

Lemma sort_by_pid_sorted l : Sorted String.le (map row_pid (sort_by_pid l)).
Proof.
  apply (Sorted_fmap row_pid (fun a b => String.le (row_pid a) (row_pid b))).
  - intros a b H. exact H.
  - apply Sorted_merge_sort. intros a b. apply String.le_total.
Qed.

(** Participants p1 and p2 answered at both time points (p3 only at the second,
    p4 never at the first): both frames list p1 then p2. *)
Lemma get_paired_data_aligned_witness :
  get_paired_data sort_by_pid first_time_point_rows second_time_point_rows =
    ([ {| row_pid := "p1"; row_answer := Val "4" |};
       {| row_pid := "p2"; row_answer := Val "3" |} ],
     [ {| row_pid := "p1"; row_answer := Val "5" |};
       {| row_pid := "p2"; row_answer := Val "1" |} ]) /\
  map row_pid (fst (get_paired_data sort_by_pid first_time_point_rows second_time_point_rows)) =
  map row_pid (snd (get_paired_data sort_by_pid first_time_point_rows second_time_point_rows)).
Proof.
  assert (Hnd1 : NoDup (map row_pid (List.filter (fun r => negb (value_is_nan (row_answer r)))
                                        first_time_point_rows))) by (apply (bool_decide_unpack _); vm_compute; exact I).
  assert (Hnd2 : NoDup (map row_pid (List.filter (fun r => negb (value_is_nan (row_answer r)))
                                        second_time_point_rows))) by (apply (bool_decide_unpack _); vm_compute; exact I).
  split; [vm_compute; reflexivity|].
  exact (proj1 (get_paired_data_aligned sort_by_pid sort_by_pid_perm sort_by_pid_sorted
                  first_time_point_rows second_time_point_rows Hnd1 Hnd2)).
Defined.

End PairedDataProofs.
